(** * Query routing, equality filtering and truncation service

    A shallow embedding of [app/main.py] (the four FastAPI handlers
    [filter_information], [route_query], [log_to_google_sheet] and
    [handle_query], and the helper [limit_token_size]) together with the
    properties its specification states about them.

    Conventions of the embedding.
    - A Python [str] is a [string]; a character [ascii] stands for the
      code point of the same number (0..255), so the built-ins
      [str.lower], [str.split] and [in] are given on that range.  The
      one character of the source beyond it, the check mark of the
      logger's confirmation, is a parameter of the logger.
    - A Python [int] is a [Z].
    - A handler's result is an [outcome]: the object it returns, or the
      exception that leaves it.
    - Files, pandas' CSV reader and the spreadsheet service are passed
      to the handlers as records of functions. *)

From Stdlib Require Import String Ascii List ZArith Bool Lia Arith.
From Stdlib Require Import DecimalString Permutation.
Import ListNotations.

#[local] Set Warnings "-register-all".

Open Scope list_scope.
Open Scope string_scope.

(** ** Python built-ins on strings *)

Module PyStr.

(** [c.isspace()] for a code point below 256: TAB..CR, FS..US, space,
    NEL (0x85) and NBSP (0xA0). *)
Definition is_space (c : ascii) : bool :=
  let n := nat_of_ascii c in
  (((9 <=? n) && (n <=? 13)) || ((28 <=? n) && (n <=? 32))
   || (n =? 133) || (n =? 160))%nat.

(** [c.lower()] for a code point below 256: A..Z and the accented
    capitals 0xC0..0xDE (the sign 0xD7 apart) move up by 32. *)
Definition lower_char (c : ascii) : ascii :=
  let n := nat_of_ascii c in
  if (((65 <=? n) && (n <=? 90))
      || ((192 <=? n) && (n <=? 222) && negb (n =? 215)))%nat
  then ascii_of_nat (n + 32) else c.

(** [s.lower()] *)
Fixpoint lower (s : string) : string :=
  match s with
  | EmptyString => EmptyString
  | String c s' => String (lower_char c) (lower s')
  end.

(** [w in q]: [w] starts at some position of [q]. *)
Fixpoint contains (w q : string) : bool :=
  if prefix w q then true
  else match q with
       | EmptyString => false
       | String _ q' => contains w q'
       end.

(** [s.endswith(suffix)] *)
Definition ends_with (suffix s : string) : bool :=
  (String.length suffix <=? String.length s)%nat
  && (substring (String.length s - String.length suffix)
                (String.length suffix) s =? suffix).

(** [not s] for a string: the empty string is falsy. *)
Definition is_empty (s : string) : bool :=
  match s with EmptyString => true | _ => false end.

(** The scanning loop of [s.split()]: [cur] holds the characters of the
    token being read; a white-space character closes it. *)
Fixpoint split_from (cur s : string) : list string :=
  match s with
  | EmptyString => if is_empty cur then [] else [cur]
  | String c s' =>
      if is_space c
      then (if is_empty cur then split_from "" s'
            else cur :: split_from "" s')
      else split_from (cur ++ String c "") s'
  end.

(** [s.split()] *)
Definition split (s : string) : list string := split_from "" s.

(** [sep.join(l)] *)
Definition join (sep : string) (l : list string) : string :=
  String.concat sep l.

(** [l[:n]] for a Python integer [n]: a negative stop counts from the
    end and is clamped at 0. *)
Definition slice_to {A : Type} (l : list A) (n : Z) : list A :=
  if (0 <=? n)%Z then firstn (Z.to_nat n) l
  else firstn (List.length l - Z.to_nat (- n)) l.

End PyStr.

Import PyStr.

(** ** The text truncator *)

(** [limit_token_size(text, max_tokens)] *)
Definition limit_token_size (text : string) (max_tokens : Z) : string :=
  let tokens := split text in
  join " " (slice_to tokens max_tokens).

(** The number of white-space delimited tokens of a string. *)
Definition token_count (s : string) : Z := Z.of_nat (List.length (split s)).

(** ** Python values, dictionaries and handler outcomes *)

(** A scalar: what a JSON body can carry at a leaf and what a cell of a
    table read from a CSV file can hold.  Numbers are integers (a cell
    of a float64 column is the integer its float is); [VNaN] is pandas'
    marker of a missing cell. *)
Inductive value : Type :=
| VNone
| VBool (b : bool)
| VInt (z : Z)
| VNaN
| VStr (s : string).

(** A Python object built from scalars, lists and dictionaries.  A
    dictionary keeps its keys in insertion order. *)
Inductive pyval : Type :=
| PVal (v : value)
| PList (l : list pyval)
| PDict (d : list (string * pyval)).

Definition dict : Type := list (string * pyval).

Definition pstr (s : string) : pyval := PVal (VStr s).

(** [d.get(key)], [None] when the key is absent. *)
Fixpoint dict_get (d : dict) (key : string) : option pyval :=
  match d with
  | [] => None
  | (k, v) :: d' => if k =? key then Some v else dict_get d' key
  end.

(** [key in d] *)
Definition dict_mem (d : dict) (key : string) : bool :=
  match dict_get d key with Some _ => true | None => false end.

(** [d.get(key, default)] *)
Definition dict_get_default (d : dict) (key : string) (default : pyval)
  : pyval :=
  match dict_get d key with Some v => v | None => default end.

(** The exceptions that can leave a handler.  [LibraryError msg] is an
    exception raised inside an external library, with its text. *)
Inductive exn : Type :=
| AttributeError
| TypeError
| OverflowError
| KeyError (key : string)
| LibraryError (msg : string).

(** What a call of a handler does: it returns an object, or an exception
    propagates out of it.  [Unmodelled] marks the places where the
    request leaves the modelled fragment: a list or dictionary formatted
    into a path or compared with a column, and an integer of 2^53 or
    more in magnitude compared with a column, where the answer depends
    on the dtype of the column and on rounding. *)
Inductive outcome : Type :=
| Returned (v : pyval)
| Raised (e : exn)
| Unmodelled.

(** [{"error": msg}] *)
Definition error_payload (msg : string) : pyval :=
  PDict [("error", pstr msg)].

(** [{"message": msg}] *)
Definition message_payload (msg : string) : pyval :=
  PDict [("message", pstr msg)].

(** [str(v)] of a scalar, as an f-string interpolates it. *)
Definition str_of_value (v : value) : string :=
  match v with
  | VNone => "None"
  | VBool true => "True"
  | VBool false => "False"
  | VInt z => NilZero.string_of_int (Z.to_int z)
  | VNaN => "nan"
  | VStr s => s
  end.

(** ** Tables *)

(** A DataFrame: the column labels and the rows, each row holding one
    cell per column, in column order. *)
Record Table : Type := mkTable {
  columns : list string;
  rows : list (list value)
}.

(** [col in df.columns] *)
Definition has_column (df : Table) (col : string) : bool :=
  existsb (fun c => c =? col) (columns df).

(** The cell of a row under a column label. *)
Fixpoint cell_at (cols : list string) (row : list value) (col : string)
  : value :=
  match cols, row with
  | c :: cs, v :: vs => if c =? col then v else cell_at cs vs col
  | _, _ => VNaN
  end.

(** [df[col]]: the column as a series, one cell per row. *)
Definition series (df : Table) (col : string) : list value :=
  map (fun row => cell_at (columns df) row col) (rows df).

(** [cell == v] for one cell, where the scalar compares exactly (see
    [safe_scalar] below).  A missing cell and a [None] equal nothing; a
    boolean compares as the integer 0 or 1; values of different kinds
    are unequal. *)
Definition cell_eqb (cell v : value) : bool :=
  match cell, v with
  | VStr a, VStr b => a =? b
  | VInt a, VInt b => (a =? b)%Z
  | VBool a, VBool b => Bool.eqb a b
  | VInt a, VBool b => (a =? (if b then 1 else 0))%Z
  | VBool a, VInt b => ((if a then 1 else 0) =? b)%Z
  | _, _ => false
  end.

(** The mask of a series against a scalar, cell by cell. *)
Definition eq_mask (s : list value) (v : value) : list bool :=
  map (fun cell => cell_eqb cell v) s.

(** A scalar that every dtype compares exactly: anything but an integer
    of magnitude 2^53 or more.  numpy compares a float64 column in
    float64, after converting the scalar to a float: integers below 2^53
    convert without rounding, and no cell, rounded or not, can then
    equal the scalar without being the same integer. *)
Definition safe_scalar (v : value) : bool :=
  match v with
  | VInt z => (Z.abs z <? 2 ^ 53)%Z
  | _ => true
  end.

(** A series that surely has dtype float64: it holds an integer and a
    missing cell, and nothing else.  pandas reads a CSV column of
    integers with an empty cell as float64, and selecting rows keeps the
    dtype of a column.  (A column read with object dtype holds strings
    and missing cells only, so a series with an integer never comes from
    one.) *)
Definition is_float64 (s : list value) : bool :=
  existsb (fun cell => match cell with VNaN => true | _ => false end) s
  && existsb (fun cell => match cell with VInt _ => true | _ => false end) s
  && forallb (fun cell => match cell with
                          | VNaN | VInt _ => true
                          | _ => false
                          end) s.

(** [s == v], as pandas computes it.  For a safe scalar it is the mask
    taken cell by cell.  An integer that no float can hold (2^1024 or
    more in magnitude) raises [OverflowError] when it is converted for
    the comparison with a float64 column.  The other integers from 2^53
    on are outside the modelled fragment. *)
Definition series_eq (s : list value) (v : value) : outcome + list bool :=
  match v with
  | VInt z =>
      if (Z.abs z <? 2 ^ 53)%Z then inr (eq_mask s v)
      else if is_float64 s && (2 ^ 1024 <=? Z.abs z)%Z
           then inl (Raised OverflowError)
           else inl Unmodelled
  | _ => inr (eq_mask s v)
  end.

(** The rows whose mask entry is [True], in their order. *)
Fixpoint select_rows (rs : list (list value)) (mask : list bool)
  : list (list value) :=
  match rs, mask with
  | r :: rs', b :: mask' =>
      if b then r :: select_rows rs' mask' else select_rows rs' mask'
  | _, _ => []
  end.

(** [df[mask]] *)
Definition boolean_index (df : Table) (mask : list bool) : Table :=
  mkTable (columns df) (select_rows (rows df) mask).

(** [df.empty]: one of the two axes has length 0. *)
Definition df_empty (df : Table) : bool :=
  match rows df, columns df with
  | [], _ => true
  | _, [] => true
  | _, _ => false
  end.

(** [df.head(n)] *)
Definition head (n : nat) (df : Table) : Table :=
  mkTable (columns df) (firstn n (rows df)).

(** [df.to_dict(orient="records")]: one dictionary per row. *)
Definition to_dict_records (df : Table) : pyval :=
  PList (map (fun row =>
                PDict (combine (columns df) (map PVal row)))
             (rows df)).

(** Whether [series.str] is available: the column has object dtype,
    which a column read from a CSV file has when it has no row or holds
    a string; a column of numbers, booleans or missing cells only has a
    numeric dtype and [.str] raises [AttributeError]. *)
Definition str_accessor_ok (s : list value) : bool :=
  match s with
  | [] => true
  | _ => existsb (fun cell => match cell with VStr _ => true
                                         | _ => false end) s
  end.

(** [series.str.lower()], element-wise: a cell that is no string gives a
    missing value. *)
Definition str_lower (cell : value) : value :=
  match cell with
  | VStr s => VStr (lower s)
  | _ => VNaN
  end.

(** The storage the handlers read: [os.path.exists] and
    [pd.read_csv], which raises with a text ([inl]) or gives a table. *)
Record Storage : Type := mkStorage {
  path_exists : string -> bool;
  read_csv : string -> string + Table
}.

(** ** The filter endpoint *)

(** [required_fields] *)
Definition required_fields : list string := ["primary_name"; "source"].

(** The validation loop: the first required field that is not a key of
    [args], if any. *)
Fixpoint first_missing (fields : list string) (args : dict)
  : option string :=
  match fields with
  | [] => None
  | field :: rest =>
      if negb (dict_mem args field) then Some field
      else first_missing rest args
  end.

(** [if "primary_name" in df.columns: df = df[df["primary_name"] ==
    primary_name]] *)
Definition filter_primary (df : Table) (primary_name : pyval)
  : outcome + Table :=
  if has_column df "primary_name" then
    match primary_name with
    | PVal v =>
        match series_eq (series df "primary_name") v with
        | inr mask => inr (boolean_index df mask)
        | inl o => inl o
        end
    | _ => inl Unmodelled
    end
  else inr df.

(** The body of the loop over the additional filters, for one element
    [f].  [f.get] exists on a dictionary only; a list or dictionary
    cannot be hashed for the membership test in [df.columns]; a label
    that is no string is never a column of a table read from a file. *)
Definition filter_step (df : Table) (f : pyval) : outcome + Table :=
  match f with
  | PDict fd =>
      let col := dict_get_default fd "column_name" (PVal VNone) in
      let val := dict_get_default fd "value" (PVal VNone) in
      match col with
      | PVal (VStr c) =>
          if has_column df c then
            match val with
            | PVal v =>
                match series_eq (series df c) v with
                | inr mask => inr (boolean_index df mask)
                | inl o => inl o
                end
            | _ => inl Unmodelled
            end
          else inr df
      | PVal _ => inr df
      | _ => inl (Raised TypeError)
      end
  | _ => inl (Raised AttributeError)
  end.

(** What [for f in filters] visits: the elements of a list, the keys of
    a dictionary, the characters of a string; any other scalar is not
    iterable. *)
Definition iterate (filters : pyval) : exn + list pyval :=
  match filters with
  | PList l => inr l
  | PDict d => inr (map (fun kv => pstr (fst kv)) d)
  | PVal (VStr s) =>
      inr (map (fun c => pstr (String c "")) (list_ascii_of_string s))
  | PVal _ => inl TypeError
  end.

(** [for f in filters: ...] *)
Fixpoint filter_loop (df : Table) (fs : list pyval) : outcome + Table :=
  match fs with
  | [] => inr df
  | f :: rest =>
      match filter_step df f with
      | inr df' => filter_loop df' rest
      | inl o => inl o
      end
  end.

(** The equality filter engine: the primary-name condition followed by
    the additional conditions. *)
Definition apply_filters (df : Table) (primary_name filters : pyval)
  : outcome + Table :=
  match filter_primary df primary_name with
  | inl o => inl o
  | inr df1 =>
      match iterate filters with
      | inl e => inl (Raised e)
      | inr fs => filter_loop df1 fs
      end
  end.

(** [filter_information(req)], with [args = req.args].  [to_string] is
    pandas' rendering [df.to_string(index=False)]. *)
Definition filter_information (st : Storage) (to_string : Table -> string)
  (args : dict) : outcome :=
  match first_missing required_fields args with
  | Some field => Returned (error_payload (field ++ " is required"))
  | None =>
      match dict_get args "primary_name", dict_get args "source" with
      | Some primary_name, Some (PVal source) =>
          let filters := dict_get_default args "additional_filters" (PList []) in
          let file_path := "data/" ++ str_of_value source ++ ".csv" in
          if negb (path_exists st file_path) then
            Returned (error_payload
                        ("File " ++ str_of_value source ++ ".csv not found"))
          else
            match read_csv st file_path with
            | inl e => Returned (error_payload ("Error reading file: " ++ e))
            | inr df =>
                match apply_filters df primary_name filters with
                | inl o => o
                | inr df' =>
                    let result_str := to_string df' in
                    let limited_result := limit_token_size result_str 800 in
                    Returned (PDict [("filtered_data", pstr limited_result)])
                end
            end
      | Some _, Some _ => Unmodelled
      | None, _ => Raised (KeyError "primary_name")
      | _, None => Raised (KeyError "source")
      end
  end.

(** ** The query router *)

(** [routing_map], in the order of its declaration. *)
Definition routing_map : list (string * list string) :=
  [ ("activities", ["activity"; "indoor"; "outdoor"]);
    ("room-information", ["room"; "suite"; "deluxe"; "guest"]);
    ("pricing", ["price"; "cost"; "charges"; "rate"]);
    ("rules", ["rule"; "policy"; "checkin"; "checkout"]);
    ("queries", ["staff"; "hire"; "help"; "housekeeping"]) ].

(** [known_locations] *)
Definition known_locations : list string :=
  ["sterling kodai lake"; "sterling holidays"].

(** Truth value of [selected_source]: [None] and the empty string are
    falsy. *)
Definition truthy (o : option string) : bool :=
  match o with
  | None => false
  | Some s => negb (is_empty s)
  end.

(** The inner loop [for word in keywords]: the first keyword found in
    the query sets [selected_source] and breaks. *)
Fixpoint scan_keywords (source : string) (keywords : list string)
  (query : string) (selected_source : option string) : option string :=
  match keywords with
  | [] => selected_source
  | word :: rest =>
      if contains word query then Some source
      else scan_keywords source rest query selected_source
  end.

(** The outer loop [for source, keywords in routing_map.items()], which
    breaks once [selected_source] is truthy. *)
Fixpoint scan_routes (items : list (string * list string)) (query : string)
  (selected_source : option string) : option string :=
  match items with
  | [] => selected_source
  | (source, keywords) :: rest =>
      let selected_source' :=
        scan_keywords source keywords query selected_source in
      if truthy selected_source' then selected_source'
      else scan_routes rest query selected_source'
  end.

(** The category selection shared by [route_query] and [handle_query]. *)
Definition select_source (query : string) : option string :=
  scan_routes routing_map query None.

(** [next((loc for loc in known_locations if loc in query), None)] *)
Definition match_location (query : string) : option string :=
  find (fun loc => contains loc query) known_locations.

(** The object [route_query] returns on success. *)
Definition route_args (source : string) : pyval :=
  PDict [("args",
          PDict [("primary_name", pstr "Sterling_Holidays");
                 ("source", pstr source);
                 ("additional_filters", PList [])])].

(** [route_query(data)] *)
Definition route_query (data : dict) : outcome :=
  match dict_get_default data "query" (pstr "") with
  | PVal (VStr q) =>
      let query := lower q in
      if is_empty query then Returned (error_payload "Query is required")
      else
        let selected_source := select_source query in
        if negb (truthy selected_source) then
          Returned (error_payload "Could not determine source from query")
        else
          let matched_location :=
            if truthy (match_location query) then match_location query
            else Some "Sterling_Holidays" in
          match selected_source with
          | Some source => Returned (route_args source)
          | None => Returned (error_payload
                                "Could not determine source from query")
          end
  | _ => Raised AttributeError
  end.

(** ** The query endpoint *)

(** [os.path.join] of relative components, none of them empty. *)
Definition os_path_join (parts : list string) : string :=
  String.concat "/" parts.

(** [df[df['primary_name'].str.lower() == matched_location]]: the column
    must exist ([KeyError] otherwise) and must have the [.str] accessor
    ([AttributeError] otherwise). *)
Definition filter_location (df : Table) (matched_location : string)
  : exn + Table :=
  if has_column df "primary_name" then
    let s := series df "primary_name" in
    if str_accessor_ok s then
      inr (boolean_index df
             (eq_mask (map str_lower s) (VStr matched_location)))
    else inl AttributeError
  else inl (KeyError "primary_name").

(** [handle_query(data)] *)
Definition handle_query (st : Storage) (data : dict) : outcome :=
  match dict_get_default data "query" (pstr "") with
  | PVal (VStr q) =>
      let query := lower q in
      if is_empty query then Returned (error_payload "Query is required")
      else
        match select_source query with
        | Some selected_source =>
            if is_empty selected_source then
              Returned (error_payload
                          "Could not determine data source from query.")
            else
              let matched_location := match_location query in
              let primary_name :=
                if truthy matched_location then "Sterling_Holidays"
                else "Sterling_Holidays" in
              let file_path :=
                os_path_join ["public"; "agent_directory";
                              selected_source ++ ".csv"] in
              if negb (path_exists st file_path) then
                Returned (error_payload (selected_source ++ ".csv not found."))
              else
                match read_csv st file_path with
                | inl e =>
                    Returned (error_payload ("Failed to read CSV: " ++ e))
                | inr df =>
                    let filtered :=
                      match matched_location with
                      | Some loc =>
                          if is_empty loc then inr df
                          else filter_location df loc
                      | None => inr df
                      end in
                    match filtered with
                    | inl e => Raised e
                    | inr filtered_df =>
                        if df_empty filtered_df then
                          Returned (message_payload "No results found.")
                        else
                          Returned (to_dict_records (head 5 filtered_df))
                    end
                end
        | None =>
            Returned (error_payload
                        "Could not determine data source from query.")
        end
  | _ => Raised AttributeError
  end.

(** ** The spreadsheet logger *)

(** The spreadsheet service as one request sees it.  Each call either
    raises, with the text of its exception ([Some msg]), or succeeds
    ([None]); [now] is [datetime.now().strftime("%Y-%m-%d %H:%M:%S")]. *)
Record SheetService : Type := mkSheetService {
  from_json_keyfile_name : string -> list string -> option string;
  authorize : option string;
  open_sheet1 : string -> option string;
  append_row : list pyval -> option string;
  now : string
}.

(** [scope] *)
Definition scope : list string :=
  ["https://spreadsheets.google.com/feeds";
   "https://www.googleapis.com/auth/drive"].

(** The row built from the nine call-log fields. *)
Definition call_log_row (sv : SheetService) (data : dict) : list pyval :=
  [ dict_get_default data "call_time" (pstr (now sv));
    dict_get_default data "phone_number" (pstr "NA");
    dict_get_default data "call_outcome" (pstr "NA");
    dict_get_default data "customer_name" (pstr "NA");
    dict_get_default data "room_name" (pstr "NA");
    dict_get_default data "check_in" (pstr "NA");
    dict_get_default data "check_out" (pstr "NA");
    dict_get_default data "guests" (pstr "NA");
    dict_get_default data "call_summary" (pstr "NA") ].

(** The text of the confirmation: the check mark U+2705 and the
    sentence.  The check mark is the one character of the source beyond
    the code points an [ascii] can name; it is a parameter
    [check_mark] of the model. *)
Definition log_success_text (check_mark : ascii) : string :=
  String check_mark " Call log added successfully".

(** [log_to_google_sheet(data)]: the outcome and the rows the handler
    passed to [sheet.append_row], in the order of the calls (whether the
    service stored a row whose call raised is not known to the
    handler).  The credentials are loaded and the client is authorised
    outside of any [try]; opening the sheet and appending the row are
    each inside one. *)
Definition log_to_google_sheet (check_mark : ascii) (sv : SheetService)
  (data : dict) : outcome * list (list pyval) :=
  match from_json_keyfile_name sv "creds.json" scope with
  | Some e => (Raised (LibraryError e), [])
  | None =>
      match authorize sv with
      | Some e => (Raised (LibraryError e), [])
      | None =>
          match open_sheet1 sv "Formi_Call_Logs" with
          | Some e =>
              (Returned (error_payload ("Could not open sheet: " ++ e)), [])
          | None =>
              let row := call_log_row sv data in
              match append_row sv row with
              | Some e =>
                  (Returned (error_payload ("Error appending row: " ++ e)),
                   [row])
              | None =>
                  (Returned (message_payload (log_success_text check_mark)),
                   [row])
              end
          end
      end
  end.

(** ** Specification-side notions *)

(** [w] occurs in [q] as a substring. *)
Definition occurs (w q : string) : Prop :=
  exists before after, q = before ++ w ++ after.

(** [l1] is a prefix of [l2]. *)
Definition is_prefix {A : Type} (l1 l2 : list A) : Prop :=
  exists rest, l2 = (l1 ++ rest)%list.

(** [l1] is [l2] with some elements left out, the others in their
    order. *)
Inductive Subseq {A : Type} : list A -> list A -> Prop :=
| Subseq_nil : Subseq [] []
| Subseq_keep : forall x l1 l2, Subseq l1 l2 -> Subseq (x :: l1) (x :: l2)
| Subseq_drop : forall x l1 l2, Subseq l1 l2 -> Subseq l1 (x :: l2).

(** A token has no white space in it. *)
Fixpoint no_space (s : string) : bool :=
  match s with
  | EmptyString => true
  | String c s' => negb (is_space c) && no_space s'
  end.

(** What [split] produces: non-empty strings without white space. *)
Definition is_token (t : string) : Prop :=
  no_space t = true /\ t <> "".

(** The routing table read as the specification words it: all the
    (category, keyword) pairs, categories in declared order and, within
    a category, keywords in declared order. *)
Definition keyword_pairs (m : list (string * list string))
  : list (string * string) :=
  flat_map (fun entry => map (fun w => (fst entry, w)) (snd entry)) m.

(** The category of the first pair whose keyword is found in the
    query. *)
Definition first_keyword_match (query : string) : option string :=
  option_map fst
    (find (fun cw => contains (snd cw) query) (keyword_pairs routing_map)).

(** A filter condition as the loop body reads it from a well-formed
    element of [additional_filters]: the column label, when it is a
    string, and the expected scalar ([None] for an absent key), which is
    a safe scalar. *)
Definition read_condition (f : pyval) : option (option string * value) :=
  match f with
  | PDict fd =>
      match dict_get_default fd "column_name" (PVal VNone),
            dict_get_default fd "value" (PVal VNone) with
      | PVal c, PVal v =>
          if safe_scalar v
          then Some (match c with VStr s => Some s | _ => None end, v)
          else None
      | _, _ => None
      end
  | _ => None
  end.

Fixpoint read_conditions (fs : list pyval)
  : option (list (option string * value)) :=
  match fs with
  | [] => Some []
  | f :: rest =>
      match read_condition f, read_conditions rest with
      | Some c, Some cs => Some (c :: cs)
      | _, _ => None
      end
  end.

(** The additional conditions whose column is among [cols]. *)
Definition present_conditions (cols : list string)
  (conds : list (option string * value)) : list (string * value) :=
  flat_map (fun cond =>
              match fst cond with
              | Some col =>
                  if existsb (fun c => c =? col) cols
                  then [(col, snd cond)] else []
              | None => []
              end) conds.

(** The conditions that are applied to a table: the primary-name
    condition when the table has that column, then the additional
    conditions whose column the table has. *)
Definition applied_conditions (df : Table) (primary_name : value)
  (conds : list (option string * value)) : list (string * value) :=
  ((if has_column df "primary_name"
    then [("primary_name", primary_name)] else [])
   ++ present_conditions (columns df) conds)%list.

(** A row satisfies every condition of a list, each by [==]. *)
Definition row_matches (cols : list string) (applied : list (string * value))
  (row : list value) : bool :=
  forallb (fun cond => cell_eqb (cell_at cols row (fst cond)) (snd cond))
          applied.

(** Error-propagating sequencing of two filtering passes. *)
Definition and_then (r : outcome + Table) (k : Table -> outcome + Table)
  : outcome + Table :=
  match r with
  | inr df => k df
  | inl o => inl o
  end.

(** Case-insensitive equality of two strings. *)
Definition ci_equal (a b : string) : bool := lower a =? lower b.

(** The rows of a table whose [primary_name] cell is a string equal to
    [loc] up to case. *)
Definition location_rows (df : Table) (loc : string) : Table :=
  mkTable (columns df)
    (filter (fun row =>
               match cell_at (columns df) row "primary_name" with
               | VStr s => ci_equal s loc
               | _ => false
               end)
            (rows df)).

(** The answer of the query endpoint for a filtered table: the message
    when it is empty, its first five rows as dictionaries otherwise. *)
Definition query_response (filtered : Table) : outcome :=
  if df_empty filtered then Returned (message_payload "No results found.")
  else
    Returned
      (PList (map (fun row => PDict (combine (columns filtered)
                                             (map PVal row)))
                  (firstn 5 (rows filtered)))).

(** The path the query endpoint reads for a category. *)
Definition agent_directory_path (category : string) : string :=
  "public/agent_directory/" ++ category ++ ".csv".

(** * Properties *)

(** ** The text truncator *)

Lemma append_empty_r (s : string) : s ++ "" = s.
Proof. induction s; simpl; congruence. Qed.

Lemma append_assoc (a b c : string) : (a ++ b) ++ c = a ++ (b ++ c).
Proof. induction a; simpl; congruence. Qed.

Lemma no_space_app (a b : string) :
  no_space (a ++ b) = no_space a && no_space b.
Proof.
  induction a as [|c a IH]; simpl; [reflexivity|].
  rewrite IH. now rewrite andb_assoc.
Qed.

(** Reading a token moves it into the accumulator. *)
Lemma split_from_token (t cur rest : string) :
  no_space t = true ->
  split_from cur (t ++ rest) = split_from (cur ++ t) rest.
Proof.
  revert cur. induction t as [|c t IH]; intros cur H; simpl in *.
  - now rewrite append_empty_r.
  - apply andb_prop in H as [Hc Ht].
    apply negb_true_iff in Hc. rewrite Hc.
    rewrite IH by assumption.
    now rewrite append_assoc.
Qed.

(** Every string [split] produces is a token. *)
Lemma split_from_tokens (s cur : string) :
  no_space cur = true -> Forall is_token (split_from cur s).
Proof.
  revert cur. induction s as [|c s IH]; intros cur H; simpl.
  - destruct cur; simpl; constructor; [|constructor].
    split; [assumption|discriminate].
  - destruct (is_space c) eqn:Hc.
    + destruct cur; simpl.
      * now apply IH.
      * constructor; [split; [assumption|discriminate]|now apply IH].
    + apply IH. rewrite no_space_app, H. simpl. now rewrite Hc.
Qed.

Lemma split_tokens (s : string) : Forall is_token (split s).
Proof. now apply split_from_tokens. Qed.

(** Joining tokens with one space and splitting again gives the tokens
    back. *)
Lemma split_join (l : list string) :
  Forall is_token l -> split (join " " l) = l.
Proof.
  unfold split, join.
  induction 1 as [|t l [Hns Hne] Hl IH]; [reflexivity|].
  destruct l as [|t' l'].
  - simpl. rewrite <- (append_empty_r t) at 1.
    rewrite split_from_token by assumption. simpl.
    destruct t; [congruence|reflexivity].
  - change (String.concat " " (t :: t' :: l'))
      with (t ++ String " " (String.concat " " (t' :: l'))).
    rewrite split_from_token by assumption.
    cbn [append]. cbn [split_from]. 
    change (is_space " ") with true. cbv iota.
    destruct t; [congruence|]. simpl is_empty. cbv iota.
    now rewrite IH.
Qed.

Lemma Forall_firstn {A : Type} (P : A -> Prop) (n : nat) (l : list A) :
  Forall P l -> Forall P (firstn n l).
Proof.
  revert n. induction l as [|x l IH]; intros [|n] H; simpl; auto.
  inversion H; subst. constructor; auto.
Qed.

Lemma firstn_is_prefix {A : Type} (n : nat) (l : list A) :
  is_prefix (firstn n l) l.
Proof. exists (skipn n l). symmetry. apply firstn_skipn. Qed.

Lemma slice_to_is_firstn {A : Type} (l : list A) (n : Z) :
  exists k, slice_to l n = firstn k l.
Proof. unfold slice_to. destruct (0 <=? n)%Z; eauto. Qed.

(** The tokens of the truncated text are the slice of the tokens of the
    text, for every stop, negative ones included. *)
Lemma limit_token_size_tokens (s : string) (N : Z) :
  split (limit_token_size s N) = slice_to (split s) N.
Proof.
  unfold limit_token_size. apply split_join.
  destruct (slice_to_is_firstn (split s) N) as [k ->].
  apply Forall_firstn, split_tokens.
Qed.

(** With a negative stop the last [-N] tokens are dropped. *)
Lemma negative_stop_drops_tail (s : string) (N : Z) :
  (N < 0)%Z ->
  token_count (limit_token_size s N) = Z.max (token_count s + N) 0.
Proof.
  intros HN. unfold token_count.
  rewrite limit_token_size_tokens. unfold slice_to.
  destruct (Z.leb_spec 0 N); [lia|].
  rewrite length_firstn. lia.
Qed.

(** C4: for every string [s] and every maximum token count [N] (a
    count: [0 <= N]), the truncator splits [s] on white space, keeps the
    first [N] tokens and rejoins them with single spaces; the token
    count of the output is [min (token_count s) N] and the tokens of the
    output are a prefix of the tokens of [s]. *)
Theorem limit_token_size_spec (s : string) (N : Z) :
  (0 <= N)%Z ->
  limit_token_size s N = join " " (firstn (Z.to_nat N) (split s))
  /\ token_count (limit_token_size s N) = Z.min (token_count s) N
  /\ is_prefix (split (limit_token_size s N)) (split s).
Proof.
  intros HN.
  assert (Hslice : slice_to (split s) N = firstn (Z.to_nat N) (split s)).
  { unfold slice_to. destruct (Z.leb_spec 0 N); [reflexivity|lia]. }
  split; [|split].
  - unfold limit_token_size. now rewrite Hslice.
  - unfold token_count. rewrite limit_token_size_tokens, Hslice.
    rewrite length_firstn. lia.
  - rewrite limit_token_size_tokens, Hslice. apply firstn_is_prefix.
Qed.

Lemma limit_token_size_spec_witness :
  (0 <= 2)%Z
  /\ limit_token_size " one  two three " 2 = "one two"
  /\ token_count (limit_token_size " one  two three " 2) = 2%Z.
Proof.
  split; [lia|].
  destruct (limit_token_size_spec " one  two three " 2) as (H1 & H2 & _);
    [lia|].
  split; [exact H1 | exact H2].
Defined.

(** ** The query router *)

Lemma prefix_occurs (w q : string) :
  prefix w q = true <-> exists after, q = w ++ after.
Proof.
  revert q. induction w as [|a w IH]; intros q.
  - destruct q; (split; [intros _; eexists; reflexivity | reflexivity]).
  - destruct q as [|b q].
    + split; [discriminate | intros [after H]; discriminate].
    + cbn [prefix append]. destruct (ascii_dec a b) as [->|Hne].
      * split.
        -- intros H. apply IH in H as [after H]. exists after. now rewrite H.
        -- intros [after H]. apply IH. exists after. now inversion H.
      * split; [discriminate|]. intros [after H]. inversion H. congruence.
Qed.

Lemma contains_nil (w : string) : contains w "" = prefix w "".
Proof. cbn [contains]. now destruct (prefix w ""). Qed.

Lemma contains_cons (w : string) (b : ascii) (q : string) :
  contains w (String b q) = prefix w (String b q) || contains w q.
Proof. cbn [contains]. now destruct (prefix w (String b q)). Qed.

(** The test [w in q] decides the occurrence of [w] in [q]. *)
Lemma contains_occurs (w q : string) :
  contains w q = true <-> occurs w q.
Proof.
  unfold occurs. induction q as [|b q IH].
  - rewrite contains_nil. split.
    + intros Hp. apply prefix_occurs in Hp as [after H].
      exists "", after. exact H.
    + intros (before & after & H).
      destruct before; [|discriminate].
      apply prefix_occurs. exists after. exact H.
  - rewrite contains_cons, orb_true_iff. split.
    + intros [Hp|Hc].
      * apply prefix_occurs in Hp as [after H]. exists "", after. exact H.
      * apply IH in Hc as (before & after & H).
        exists (String b before), after. cbn [append]. now rewrite H.
    + intros (before & after & H). destruct before as [|b' before].
      * left. apply prefix_occurs. exists after. exact H.
      * right. apply IH. cbn [append] in H. inversion H. eauto.
Qed.

Lemma scan_keywords_found (source : string) (keywords : list string)
  (query : string) (sel : option string) :
  scan_keywords source keywords query sel
  = if existsb (fun w => contains w query) keywords then Some source
    else sel.
Proof.
  induction keywords as [|w ws IH]; simpl; [reflexivity|].
  destruct (contains w query); [reflexivity | exact IH].
Qed.

Lemma find_app {A : Type} (f : A -> bool) (l1 l2 : list A) :
  find f (l1 ++ l2)%list
  = match find f l1 with Some x => Some x | None => find f l2 end.
Proof.
  induction l1 as [|x l1 IH]; simpl; [reflexivity|].
  destruct (f x); [reflexivity | exact IH].
Qed.

Lemma find_keywords (source : string) (keywords : list string)
  (query : string) :
  option_map fst
    (find (fun cw : string * string => contains (snd cw) query)
          (map (fun w => (source, w)) keywords))
  = if existsb (fun w => contains w query) keywords then Some source
    else None.
Proof.
  induction keywords as [|w ws IH]; simpl; [reflexivity|].
  destruct (contains w query); [reflexivity | exact IH].
Qed.

(** The two nested loops find the category of the first pair, in
    declared order, whose keyword is in the query, as long as no
    category has the empty name. *)
Lemma scan_routes_first_match (m : list (string * list string))
  (query : string) :
  Forall (fun entry => fst entry <> "") m ->
  scan_routes m query None
  = option_map fst
      (find (fun cw => contains (snd cw) query) (keyword_pairs m)).
Proof.
  induction 1 as [|[source keywords] m Hne Hm IH]; [reflexivity|].
  cbn [scan_routes keyword_pairs flat_map fst snd].
  rewrite find_app, scan_keywords_found.
  pose proof (find_keywords source keywords query) as Hk.
  destruct (existsb (fun w => contains w query) keywords).
  - simpl in Hne. destruct source; [congruence|]. simpl.
    destruct (find _ (map _ keywords)); simpl in *; congruence.
  - simpl. destruct (find _ (map _ keywords)); simpl in *; [congruence|].
    exact IH.
Qed.

(** The selected category is the one of the first routing entry that
    has a keyword occurring in the query. *)
Lemma scan_routes_first_entry (m : list (string * list string))
  (query c : string) :
  Forall (fun entry => fst entry <> "") m ->
  scan_routes m query None = Some c <->
  exists pre kws post,
    m = (pre ++ (c, kws) :: post)%list
    /\ (exists w, In w kws /\ occurs w query)
    /\ (forall c' kws' w',
           In (c', kws') pre -> In w' kws' -> ~ occurs w' query).
Proof.
  induction 1 as [|[source keywords] m Hne Hm IH].
  - simpl. split; [discriminate|].
    intros (pre & kws & post & H & _). destruct pre; discriminate.
  - cbn [scan_routes]. rewrite scan_keywords_found.
    destruct (existsb (fun w => contains w query) keywords) eqn:Hex.
    + simpl in Hne. destruct source as [|a source]; [congruence|].
      simpl. apply existsb_exists in Hex as (w & Hin & Hw).
      apply contains_occurs in Hw. split.
      * intros [= <-]. exists [], keywords, m.
        split; [reflexivity|]. split; [eauto|]. intros c' kws' w' [].
      * intros (pre & kws & post & Heq & _ & Hpre).
        destruct pre as [|e pre]; simpl in Heq; inversion Heq; [reflexivity|].
        subst e. exfalso. apply (Hpre _ _ w (or_introl eq_refl) Hin Hw).
    + simpl. rewrite IH. split.
      * intros (pre & kws & post & Heq & Hw & Hpre).
        exists ((source, keywords) :: pre), kws, post.
        split; [simpl; now rewrite Heq|]. split; [exact Hw|].
        intros c' kws' w' [Hin|Hin] Hin'; [|eauto].
        inversion Hin; subst. intros Hocc. apply contains_occurs in Hocc.
        assert (existsb (fun w => contains w query) kws' = true)
          by (apply existsb_exists; eauto).
        congruence.
      * intros (pre & kws & post & Heq & (w & Hin & Hw) & Hpre).
        destruct pre as [|e pre]; simpl in Heq; inversion Heq; subst.
        -- apply contains_occurs in Hw.
           assert (existsb (fun w => contains w query) kws = true)
             by (apply existsb_exists; eauto).
           congruence.
        -- exists pre, kws, post.
           split; [reflexivity|]. split; [eauto|].
           intros c' kws' w' Hin'. apply (Hpre c' kws' w'). now right.
Qed.

Lemma routing_map_names : Forall (fun entry => fst entry <> "") routing_map.
Proof. repeat constructor; discriminate. Qed.

Lemma select_source_name (query c : string) :
  select_source query = Some c -> c <> "".
Proof.
  intros H. apply (scan_routes_first_entry _ _ _ routing_map_names) in H.
  destruct H as (pre & kws & post & Heq & _).
  pose proof routing_map_names as Hn. rewrite Heq in Hn.
  apply Forall_app in Hn as [_ Hn]. inversion Hn; assumption.
Qed.

Lemma select_source_nonempty (query c : string) :
  select_source query = Some c -> is_empty query = false.
Proof. destruct query; [discriminate | reflexivity]. Qed.

(** C1: for every query string, the category selection of the route
    endpoint works on the lower-cased query and walks the five
    categories in declared order and the keywords of each in declared
    order; the first keyword that occurs in the lowered query selects
    its category.  The selected category is thus the one of the first
    routing entry with a keyword occurring in the query, and it decides
    the answer of the endpoint.  For ["what is the room rate"] it is
    [room-information], although ["rate"] is a keyword of [pricing]. *)
Theorem route_category_first_match (q : string) :
  map fst routing_map
  = ["activities"; "room-information"; "pricing"; "rules"; "queries"]
  /\ select_source (lower q) = first_keyword_match (lower q)
  /\ (forall c,
        select_source (lower q) = Some c <->
        exists pre kws post,
          routing_map = (pre ++ (c, kws) :: post)%list
          /\ (exists w, In w kws /\ occurs w (lower q))
          /\ (forall c' kws' w',
                 In (c', kws') pre -> In w' kws' -> ~ occurs w' (lower q)))
  /\ occurs "room" (lower "what is the room rate")
  /\ occurs "rate" (lower "what is the room rate")
  /\ select_source (lower "what is the room rate") = Some "room-information"
  /\ route_query [("query", pstr "what is the room rate")]
     = Returned (route_args "room-information")
  /\ (forall data,
        dict_get data "query" = Some (pstr q) -> q <> "" ->
        route_query data
        = match first_keyword_match (lower q) with
          | Some c => Returned (route_args c)
          | None => Returned (error_payload
                                "Could not determine source from query")
          end).
Proof.
  assert (Hfirst : select_source (lower q) = first_keyword_match (lower q))
    by apply scan_routes_first_match, routing_map_names.
  split; [reflexivity|]. split; [exact Hfirst|]. split.
  { intros c. apply scan_routes_first_entry, routing_map_names. }
  split; [exists "what is the ", " rate"; reflexivity|].
  split; [exists "what is the room ", ""; reflexivity|].
  split; [reflexivity|]. split; [reflexivity|].
  intros data Hq Hne. rewrite <- Hfirst.
  unfold route_query, dict_get_default. rewrite Hq. cbn [pstr]. cbv zeta.
  destruct q as [|a q]; [congruence|]. cbn [lower is_empty].
  destruct (select_source (String (lower_char a) (lower q))) as [c|] eqn:Hc;
    [|reflexivity].
  pose proof (select_source_name _ _ Hc) as Hc'.
  destruct c; [congruence|]. reflexivity.
Qed.

Lemma route_category_first_match_witness :
  route_query [("query", pstr "Guest charges")]
  = Returned (route_args "room-information").
Proof.
  destruct (route_category_first_match "Guest charges")
    as (_ & _ & _ & _ & _ & _ & _ & H).
  rewrite (H [("query", pstr "Guest charges")] eq_refl); [reflexivity|].
  discriminate.
Defined.

(** C2: for every request to the route endpoint whose query matches a
    category keyword, the response is exactly [{"args": {"primary_name":
    "Sterling_Holidays", "source": <category>, "additional_filters":
    []}}]; the primary name is this literal whatever location the query
    names. *)
Theorem route_success_response (data : dict) (q c : string) :
  dict_get data "query" = Some (pstr q) ->
  select_source (lower q) = Some c ->
  route_query data
  = Returned
      (PDict [("args",
               PDict [("primary_name", pstr "Sterling_Holidays");
                      ("source", pstr c);
                      ("additional_filters", PList [])])]).
Proof.
  intros Hq Hc. unfold route_query, dict_get_default. rewrite Hq.
  cbn [pstr]. cbv zeta.
  rewrite (select_source_nonempty _ _ Hc), Hc.
  pose proof (select_source_name _ _ Hc) as Hne.
  destruct c; [congruence|]. reflexivity.
Qed.

Lemma route_success_response_witness :
  route_query [("query", pstr "Checkin policy at Sterling Kodai Lake")]
  = Returned
      (PDict [("args",
               PDict [("primary_name", pstr "Sterling_Holidays");
                      ("source", pstr "rules");
                      ("additional_filters", PList [])])]).
Proof.
  apply (route_success_response
           [("query", pstr "Checkin policy at Sterling Kodai Lake")]
           "Checkin policy at Sterling Kodai Lake" "rules");
    reflexivity.
Defined.

(** C10: a body without the key ["query"], sent to the route or to the
    query endpoint, is answered as an empty query string is: with
    [{"error": "Query is required"}]. *)
Theorem missing_query_key (st : Storage) (data : dict) :
  dict_get data "query" = None ->
  route_query data = Returned (error_payload "Query is required")
  /\ handle_query st data = Returned (error_payload "Query is required")
  /\ route_query data = route_query (("query", pstr "") :: data)
  /\ handle_query st data = handle_query st (("query", pstr "") :: data).
Proof.
  intros H. unfold route_query, handle_query, dict_get_default.
  rewrite H. repeat split.
Qed.

Lemma missing_query_key_witness :
  route_query [("text", pstr "room rate")]
  = Returned (PDict [("error", pstr "Query is required")])
  /\ handle_query (mkStorage (fun _ => true) (fun _ => inl "unused"))
       [("text", pstr "room rate")]
     = Returned (PDict [("error", pstr "Query is required")]).
Proof.
  destruct (missing_query_key
              (mkStorage (fun _ => true) (fun _ => inl "unused"))
              [("text", pstr "room rate")]) as (H1 & H2 & _);
    [reflexivity|].
  split; [exact H1 | exact H2].
Defined.

(** ** The equality filter engine *)

Lemma series_eq_safe (s : list value) (v : value) :
  safe_scalar v = true -> series_eq s v = inr (eq_mask s v).
Proof.
  unfold safe_scalar, series_eq. destruct v; try reflexivity.
  now intros ->.
Qed.

Lemma series_eq_mask (s : list value) (v : value) (m : list bool) :
  series_eq s v = inr m -> safe_scalar v = true /\ m = eq_mask s v.
Proof.
  unfold safe_scalar, series_eq.
  destruct v; try (intros [= <-]; now split).
  destruct (Z.abs z <? 2 ^ 53)%Z; [intros [= <-]; now split|].
  destruct (is_float64 s && (2 ^ 1024 <=? Z.abs z)%Z); discriminate.
Qed.

Lemma series_eq_error (s : list value) (v : value) (o : outcome) :
  series_eq s v = inl o -> o = Unmodelled \/ o = Raised OverflowError.
Proof.
  unfold series_eq. destruct v; try discriminate.
  destruct (Z.abs z <? 2 ^ 53)%Z; [discriminate|].
  destruct (is_float64 s && (2 ^ 1024 <=? Z.abs z)%Z);
    intros [= <-]; auto.
Qed.

Lemma select_rows_filter (f : list value -> bool) (rs : list (list value)) :
  select_rows rs (map f rs) = filter f rs.
Proof.
  induction rs as [|r rs IH]; simpl; [reflexivity|].
  destruct (f r); now rewrite IH.
Qed.

(** Indexing a table by the mask of [df[col] == v] keeps the rows whose
    cell under [col] equals [v]. *)
Lemma boolean_index_eq (df : Table) (col : string) (v : value) :
  boolean_index df (eq_mask (series df col) v)
  = mkTable (columns df)
      (filter (fun row => cell_eqb (cell_at (columns df) row col) v)
              (rows df)).
Proof.
  unfold boolean_index, eq_mask, series. f_equal.
  rewrite map_map. apply select_rows_filter.
Qed.

Lemma filter_filter {A : Type} (p q : A -> bool) (l : list A) :
  filter q (filter p l) = filter (fun x => p x && q x) l.
Proof.
  induction l as [|x l IH]; simpl; [reflexivity|].
  destruct (p x); simpl; [destruct (q x)|]; now rewrite IH.
Qed.

Lemma filter_true {A : Type} (l : list A) : filter (fun _ => true) l = l.
Proof. induction l; simpl; congruence. Qed.


Lemma filter_Subseq {A : Type} (p : A -> bool) (l : list A) :
  Subseq (filter p l) l.
Proof.
  induction l as [|x l IH]; simpl; [constructor|].
  destruct (p x); now constructor.
Qed.

(** One pass of the loop body, when it returns a table: the table keeps
    its columns and the rows that pass a test which depends on the
    columns and on the filter only; any table with the same columns is
    treated alike. *)
Lemma filter_step_rows (df df' : Table) (f : pyval) :
  filter_step df f = inr df' ->
  exists p,
    forall df2, columns df2 = columns df ->
      filter_step df2 f = inr (mkTable (columns df2) (filter p (rows df2))).
Proof.
  unfold filter_step, has_column. intros H.
  destruct f as [v|l|fd]; try discriminate.
  destruct (dict_get_default fd "column_name" (PVal VNone))
    as [[| | | |c]|l|d]; try discriminate;
    try (exists (fun _ => true); intros [cols2 rs2] _; cbn;
         now rewrite filter_true).
  destruct (existsb (fun c0 => c0 =? c) (columns df)) eqn:Hc.
  - destruct (dict_get_default fd "value" (PVal VNone)) as [v|l|d];
      try discriminate.
    destruct (series_eq (series df c) v) as [o|m] eqn:Hs; [discriminate|].
    apply series_eq_mask in Hs as [Hsafe _].
    exists (fun row => cell_eqb (cell_at (columns df) row c) v).
    intros df2 Hcols.
    rewrite Hcols, Hc, (series_eq_safe _ _ Hsafe), boolean_index_eq.
    now rewrite Hcols.
  - exists (fun _ => true). intros [cols2 rs2] Hcols. cbn in *.
    rewrite Hcols, Hc. now rewrite filter_true.
Qed.

Lemma filter_loop_rows (fs : list pyval) (df df' : Table) :
  filter_loop df fs = inr df' ->
  exists p,
    forall df2, columns df2 = columns df ->
      filter_loop df2 fs = inr (mkTable (columns df2) (filter p (rows df2))).
Proof.
  revert df. induction fs as [|f fs IH]; intros df H; simpl in *.
  - exists (fun _ => true). intros [cols2 rs2] _. cbn. now rewrite filter_true.
  - destruct (filter_step df f) as [o|df1] eqn:Hstep; [discriminate|].
    destruct (filter_step_rows _ _ _ Hstep) as [p Hp].
    pose proof (Hp df eq_refl) as Hdf. rewrite Hstep in Hdf.
    injection Hdf as ->.
    destruct (IH _ H) as [q Hq].
    exists (fun row => p row && q row). intros df2 Hcols.
    rewrite (Hp df2 Hcols).
    rewrite (Hq (mkTable (columns df2) (filter p (rows df2))))
      by (cbn; exact Hcols).
    cbn. now rewrite filter_filter.
Qed.

Lemma filter_primary_rows (df df' : Table) (pn : pyval) :
  filter_primary df pn = inr df' ->
  exists p,
    forall df2, columns df2 = columns df ->
      filter_primary df2 pn = inr (mkTable (columns df2) (filter p (rows df2))).
Proof.
  unfold filter_primary, has_column. intros H.
  destruct (existsb (fun c => c =? "primary_name") (columns df)) eqn:Hc.
  - destruct pn as [v|l|d]; try discriminate.
    destruct (series_eq (series df "primary_name") v) as [o|m] eqn:Hs;
      [discriminate|].
    apply series_eq_mask in Hs as [Hsafe _].
    exists (fun row => cell_eqb (cell_at (columns df) row "primary_name") v).
    intros df2 Hcols.
    rewrite Hcols, Hc, (series_eq_safe _ _ Hsafe), boolean_index_eq.
    now rewrite Hcols.
  - exists (fun _ => true). intros [cols2 rs2] Hcols. cbn in *.
    rewrite Hcols, Hc. now rewrite filter_true.
Qed.

(** When the engine returns a table, it is the input restricted to the
    rows that pass one test, and the engine gives the same restriction
    on every table with the same columns. *)
Lemma apply_filters_rows (df df' : Table) (pn filters : pyval) :
  apply_filters df pn filters = inr df' ->
  exists p,
    forall df2, columns df2 = columns df ->
      apply_filters df2 pn filters
      = inr (mkTable (columns df2) (filter p (rows df2))).
Proof.
  unfold apply_filters. intros H.
  destruct (filter_primary df pn) as [o|df1] eqn:Hprim; [discriminate|].
  destruct (filter_primary_rows _ _ _ Hprim) as [p Hp].
  pose proof (Hp df eq_refl) as Hdf. rewrite Hprim in Hdf.
  injection Hdf as ->.
  destruct (iterate filters) as [e|fs]; [discriminate|].
  destruct (filter_loop_rows _ _ _ H) as [q Hq].
  exists (fun row => p row && q row). intros df2 Hcols.
  rewrite (Hp df2 Hcols).
  rewrite (Hq (mkTable (columns df2) (filter p (rows df2))))
    by (cbn; exact Hcols).
  cbn. now rewrite filter_filter.
Qed.

Lemma row_matches_app (cols : list string) (a b : list (string * value))
  (row : list value) :
  row_matches cols (a ++ b)%list row
  = row_matches cols a row && row_matches cols b row.
Proof. unfold row_matches. apply forallb_app. Qed.

Lemma filter_row_matches_nil (cols : list string) (rs : list (list value)) :
  filter (row_matches cols []) rs = rs.
Proof. apply filter_true. Qed.

Lemma filter_row_matches_one (cols : list string) (col : string) (v : value)
  (rs : list (list value)) :
  filter (fun row => cell_eqb (cell_at cols row col) v) rs
  = filter (row_matches cols [(col, v)]) rs.
Proof.
  apply filter_ext. intros row. unfold row_matches. simpl.
  now rewrite andb_true_r.
Qed.

Lemma filter_row_matches_app (cols : list string)
  (a b : list (string * value)) (rs : list (list value)) :
  filter (row_matches cols b) (filter (row_matches cols a) rs)
  = filter (row_matches cols (a ++ b)%list) rs.
Proof.
  rewrite filter_filter. apply filter_ext. intros row.
  now rewrite row_matches_app.
Qed.

(** The loop body on a well-formed condition. *)
Lemma filter_step_condition (df : Table) (f : pyval)
  (cond : option string * value) :
  read_condition f = Some cond ->
  filter_step df f
  = inr (mkTable (columns df)
           (filter (row_matches (columns df)
                      (present_conditions (columns df) [cond]))
                   (rows df))).
Proof.
  unfold read_condition, filter_step, has_column, present_conditions.
  destruct f as [v|l|fd]; try discriminate.
  destruct (dict_get_default fd "column_name" (PVal VNone)) as [c|l|d];
    try discriminate.
  destruct (dict_get_default fd "value" (PVal VNone)) as [v|l|d];
    try discriminate.
  destruct (safe_scalar v) eqn:Hsafe; [|discriminate].
  intros [= <-]. destruct df as [cols rs]. cbn [columns rows fst snd flat_map].
  destruct c as [| | | |c]; cbn [app];
    try (now rewrite filter_row_matches_nil).
  destruct (existsb (fun c0 => c0 =? c) cols); cbn [app].
  - rewrite (series_eq_safe _ _ Hsafe), boolean_index_eq. cbn [columns rows].
    now rewrite filter_row_matches_one.
  - now rewrite filter_row_matches_nil.
Qed.

Lemma filter_loop_conditions (fs : list pyval)
  (conds : list (option string * value)) (df : Table) :
  read_conditions fs = Some conds ->
  filter_loop df fs
  = inr (mkTable (columns df)
           (filter (row_matches (columns df)
                      (present_conditions (columns df) conds))
                   (rows df))).
Proof.
  revert conds df. induction fs as [|f fs IH]; intros conds df H.
  - injection H as <-. destruct df as [cols rs]. cbn.
    now rewrite filter_row_matches_nil.
  - cbn [read_conditions] in H.
    destruct (read_condition f) as [cond|] eqn:Hf; [|discriminate].
    destruct (read_conditions fs) as [cs|] eqn:Hfs; [|discriminate].
    injection H as <-. cbn [filter_loop].
    rewrite (filter_step_condition _ _ _ Hf).
    rewrite (IH cs _ eq_refl). cbn [columns rows].
    rewrite filter_row_matches_app.
    unfold present_conditions. cbn [flat_map]. now rewrite app_nil_r.
Qed.

(** The engine on a safe scalar primary name and well-formed
    conditions: it returns the table restricted to the rows that satisfy
    every applied condition. *)
Lemma apply_filters_conditions (df : Table) (pn : value) (fs : list pyval)
  (conds : list (option string * value)) :
  safe_scalar pn = true ->
  read_conditions fs = Some conds ->
  apply_filters df (PVal pn) (PList fs)
  = inr (mkTable (columns df)
           (filter (row_matches (columns df) (applied_conditions df pn conds))
                   (rows df))).
Proof.
  intros Hsafe H. unfold apply_filters, filter_primary, applied_conditions.
  destruct (has_column df "primary_name").
  - rewrite (series_eq_safe _ _ Hsafe), boolean_index_eq. cbn [iterate].
    rewrite (filter_loop_conditions _ _ _ H). cbn [columns rows].
    rewrite filter_row_matches_one, filter_row_matches_app. reflexivity.
  - cbn [iterate]. rewrite (filter_loop_conditions _ _ _ H). reflexivity.
Qed.

Lemma present_conditions_In (cols : list string)
  (conds : list (option string * value)) (col : string) (v : value) :
  In (col, v) (present_conditions cols conds) <->
  In (Some col, v) conds /\ existsb (fun c => c =? col) cols = true.
Proof.
  unfold present_conditions. rewrite in_flat_map. split.
  - intros ([[c|] v'] & Hin & H); cbn [fst snd] in H; [|destruct H].
    destruct (existsb (fun c0 => c0 =? c) cols) eqn:Hc; [|destruct H].
    destruct H as [[= -> ->]|[]]. now split.
  - intros [Hin Hc]. exists (Some col, v). split; [exact Hin|].
    cbn [fst snd]. rewrite Hc. now left.
Qed.






(** ** The filter endpoint *)

(** C9: for every request to the filter endpoint whose [args] lacks a
    required field, the response is exactly [{"error": "<field> is
    required"}] for the first missing field in the order [primary_name],
    [source]. *)
Theorem filter_missing_field (st : Storage) (to_string : Table -> string)
  (args : dict) :
  dict_mem args "primary_name" = false \/ dict_mem args "source" = false ->
  required_fields = ["primary_name"; "source"]
  /\ filter_information st to_string args
     = Returned
         (PDict [("error",
                  pstr (if dict_mem args "primary_name"
                        then "source is required"
                        else "primary_name is required"))]).
Proof.
  intros H. split; [reflexivity|].
  unfold filter_information, required_fields, first_missing.
  destruct (dict_mem args "primary_name"); [|reflexivity].
  destruct H as [H|H]; [discriminate|]. now rewrite H.
Qed.

Lemma filter_missing_field_witness :
  filter_information (mkStorage (fun _ => false) (fun _ => inl "unused"))
    (fun _ => "") [("primary_name", pstr "X")]
  = Returned (PDict [("error", pstr "source is required")])
  /\ filter_information (mkStorage (fun _ => false) (fun _ => inl "unused"))
       (fun _ => "") []
     = Returned (PDict [("error", pstr "primary_name is required")]).
Proof.
  split.
  - apply (filter_missing_field
             (mkStorage (fun _ => false) (fun _ => inl "unused"))
             (fun _ => "") [("primary_name", pstr "X")]).
    right. reflexivity.
  - apply (filter_missing_field
             (mkStorage (fun _ => false) (fun _ => inl "unused"))
             (fun _ => "") []).
    left. reflexivity.
Defined.

(** ** Messages for a missing file *)

Lemma length_append (a b : string) :
  String.length (a ++ b) = String.length a + String.length b.
Proof. induction a; simpl; congruence. Qed.

Lemma substring_all (s : string) : substring 0 (String.length s) s = s.
Proof. induction s; simpl; congruence. Qed.

Lemma substring_skip (a b : string) :
  substring (String.length a) (String.length b) (a ++ b) = b.
Proof. induction a; simpl; [apply substring_all | assumption]. Qed.

Lemma ends_with_append (a suffix : string) :
  ends_with suffix (a ++ suffix) = true.
Proof.
  unfold ends_with. rewrite length_append.
  replace (String.length a + String.length suffix - String.length suffix)
    with (String.length a) by lia.
  rewrite substring_skip, String.eqb_refl, andb_true_r.
  apply Nat.leb_le. lia.
Qed.

Lemma select_source_cases (query c : string) :
  select_source query = Some c -> In c (map fst routing_map).
Proof.
  intros H. apply (scan_routes_first_entry _ _ _ routing_map_names) in H.
  destruct H as (pre & kws & post & Heq & _). rewrite Heq.
  rewrite map_app. apply in_or_app. right. now left.
Qed.

Lemma os_path_join_agent_directory (category : string) :
  os_path_join ["public"; "agent_directory"; category ++ ".csv"]
  = agent_directory_path category.
Proof. reflexivity. Qed.

(** The query endpoint up to the point where the file is looked up. *)
Lemma handle_query_routed (st : Storage) (data : dict) (q c : string) :
  dict_get data "query" = Some (pstr q) ->
  select_source (lower q) = Some c ->
  handle_query st data
  = if negb (path_exists st (agent_directory_path c)) then
      Returned (error_payload (c ++ ".csv not found."))
    else
      match read_csv st (agent_directory_path c) with
      | inl e => Returned (error_payload ("Failed to read CSV: " ++ e))
      | inr df =>
          match
            match match_location (lower q) with
            | Some loc => if is_empty loc then inr df
                          else filter_location df loc
            | None => inr df
            end
          with
          | inl e => Raised e
          | inr filtered_df =>
              if df_empty filtered_df then
                Returned (message_payload "No results found.")
              else Returned (to_dict_records (head 5 filtered_df))
          end
      end.
Proof.
  intros Hq Hc. unfold handle_query, dict_get_default. rewrite Hq.
  cbn [pstr]. cbv zeta.
  rewrite (select_source_nonempty _ _ Hc), Hc.
  pose proof (select_source_name _ _ Hc) as Hne.
  destruct c as [|a c]; [congruence|]. cbn [is_empty].
  rewrite os_path_join_agent_directory. reflexivity.
Qed.

(** C6, as stated, fails on the query endpoint: its message for a
    missing file ends with a full stop, so it does not end with
    [".csv not found"]. *)
Lemma query_missing_file_suffix :
  handle_query (mkStorage (fun _ => false) (fun _ => inl "unused"))
    [("query", pstr "room")]
  = Returned (PDict [("error", pstr "room-information.csv not found.")])
  /\ ends_with ".csv not found" "room-information.csv not found." = false.
Proof. split; reflexivity. Qed.

(** C6 (amended): when the file of the source does not exist, the filter
    endpoint answers [{"error": "File <source>.csv not found"}], a
    message that echoes the source name and ends with [".csv not
    found"]; the query endpoint answers [{"error": "<category>.csv not
    found."}], a message that echoes the category followed by [".csv not
    found"] and ends with a full stop. *)
Theorem missing_file_message :
  (forall (st : Storage) (to_string : Table -> string) (args : dict)
          (pn : pyval) (source : value),
      dict_get args "primary_name" = Some pn ->
      dict_get args "source" = Some (PVal source) ->
      path_exists st ("data/" ++ str_of_value source ++ ".csv") = false ->
      filter_information st to_string args
      = Returned
          (PDict [("error",
                   pstr ("File " ++ str_of_value source ++ ".csv not found"))])
      /\ ends_with ".csv not found"
           ("File " ++ str_of_value source ++ ".csv not found") = true
      /\ occurs (str_of_value source)
           ("File " ++ str_of_value source ++ ".csv not found"))
  /\ (forall (st : Storage) (data : dict) (q c : string),
         dict_get data "query" = Some (pstr q) ->
         select_source (lower q) = Some c ->
         path_exists st (agent_directory_path c) = false ->
         handle_query st data
         = Returned (PDict [("error", pstr (c ++ ".csv not found."))])
         /\ ends_with ".csv not found." (c ++ ".csv not found.") = true
         /\ ends_with ".csv not found" (c ++ ".csv not found.") = false
         /\ occurs (c ++ ".csv not found") (c ++ ".csv not found.")).
Proof.
  split.
  - intros st to_string args pn source Hpn Hsrc Hpath. split; [|split].
    + unfold filter_information, required_fields, first_missing, dict_mem.
      rewrite Hpn, Hsrc. cbn [negb]. rewrite Hpath. reflexivity.
    + rewrite <- append_assoc. apply ends_with_append.
    + exists "File ", ".csv not found". reflexivity.
  - intros st data q c Hq Hc Hpath. split; [|split; [|split]].
    + rewrite (handle_query_routed _ _ _ _ Hq Hc), Hpath. reflexivity.
    + apply ends_with_append.
    + apply select_source_cases in Hc. cbn in Hc.
      repeat (destruct Hc as [<-|Hc]; [reflexivity|]). destruct Hc.
    + exists "", ".". cbn [append]. now rewrite append_assoc.
Qed.

Lemma missing_file_message_witness :
  filter_information (mkStorage (fun _ => false) (fun _ => inl "unused"))
    (fun _ => "") [("primary_name", pstr "X"); ("source", pstr "missing")]
  = Returned (PDict [("error", pstr "File missing.csv not found")])
  /\ handle_query (mkStorage (fun _ => false) (fun _ => inl "unused"))
       [("query", pstr "Checkin policy")]
     = Returned (PDict [("error", pstr "rules.csv not found.")]).
Proof.
  destruct missing_file_message as [Hfilter Hquery]. split.
  - apply (Hfilter (mkStorage (fun _ => false) (fun _ => inl "unused"))
             (fun _ => "")
             [("primary_name", pstr "X"); ("source", pstr "missing")]
             (pstr "X") (VStr "missing")); reflexivity.
  - apply (Hquery (mkStorage (fun _ => false) (fun _ => inl "unused"))
             [("query", pstr "Checkin policy")] "Checkin policy" "rules");
      reflexivity.
Defined.

(** ** The query endpoint *)

Lemma match_location_cases (query loc : string) :
  match_location query = Some loc ->
  loc = "sterling kodai lake" \/ loc = "sterling holidays".
Proof.
  unfold match_location, known_locations. cbn [find].
  destruct (contains "sterling kodai lake" query); [intros [= <-]; now left|].
  destruct (contains "sterling holidays" query); [intros [= <-]; now right|].
  discriminate.
Qed.

(** The mask of the query endpoint keeps the rows whose primary name is
    the detected location up to case. *)
Lemma filter_location_rows (df : Table) (loc : string) :
  has_column df "primary_name" = true ->
  str_accessor_ok (series df "primary_name") = true ->
  lower loc = loc ->
  filter_location df loc = inr (location_rows df loc).
Proof.
  intros Hcol Hstr Hloc. unfold filter_location. rewrite Hcol, Hstr.
  unfold boolean_index, eq_mask, series, location_rows.
  rewrite !map_map, select_rows_filter. do 2 f_equal.
  apply filter_ext. intros row. unfold ci_equal. rewrite Hloc.
  now destruct (cell_at (columns df) row "primary_name").
Qed.

Lemma df_empty_rows (df : Table) :
  columns df <> [] -> (df_empty df = true <-> rows df = []).
Proof.
  unfold df_empty. intros Hc.
  destruct (rows df); destruct (columns df); try congruence;
    split; congruence.
Qed.

(** C7, as stated, fails: the file of the category loads, the query
    names a known location, and the table has no [primary_name] column;
    the handler raises [KeyError] and gives no response. *)
Lemma query_without_primary_name_column :
  select_source (lower "rooms at Sterling Holidays") = Some "room-information"
  /\ match_location (lower "rooms at Sterling Holidays")
     = Some "sterling holidays"
  /\ handle_query
       (mkStorage (fun _ => true)
                  (fun _ => inr (mkTable ["room"] [[VStr "deluxe"]])))
       [("query", pstr "rooms at Sterling Holidays")]
     = Raised (KeyError "primary_name").
Proof. repeat split. Qed.

(** C7 (amended): for every request to the query endpoint whose query
    matches a category keyword and whose CSV file loads: when no known
    location is detected all rows are kept; when one is detected and the
    table has a [primary_name] column holding strings, the rows are
    those whose [primary_name] equals the detected location up to case.
    If the filtered table is empty the response is exactly [{"message":
    "No results found."}], otherwise it is the list of the first five
    filtered rows, each as a dictionary from column to cell. *)
Theorem query_success_response (st : Storage) (data : dict) (q c : string)
  (df : Table) :
  dict_get data "query" = Some (pstr q) ->
  select_source (lower q) = Some c ->
  path_exists st (agent_directory_path c) = true ->
  read_csv st (agent_directory_path c) = inr df ->
  (match_location (lower q) = None ->
   handle_query st data = query_response df)
  /\ (forall loc,
        match_location (lower q) = Some loc ->
        has_column df "primary_name" = true ->
        str_accessor_ok (series df "primary_name") = true ->
        handle_query st data = query_response (location_rows df loc))
  /\ (forall t : Table,
        columns t <> [] ->
        (rows t = [] ->
         query_response t = Returned (PDict [("message",
                                              pstr "No results found.")]))
        /\ (rows t <> [] ->
            query_response t
            = Returned
                (PList (map (fun row =>
                               PDict (combine (columns t) (map PVal row)))
                            (firstn 5 (rows t)))))).
Proof.
  intros Hq Hc Hpath Hread.
  pose proof (handle_query_routed st data q c Hq Hc) as H.
  rewrite Hpath, Hread in H. cbn [negb] in H.
  split; [|split].
  - intros Hloc. rewrite Hloc in H. exact H.
  - intros loc Hloc Hcol Hstr. rewrite Hloc in H.
    assert (Hlow : lower loc = loc /\ is_empty loc = false).
    { destruct (match_location_cases _ _ Hloc) as [-> | ->]; now split. }
    destruct Hlow as [Hlow Hne]. rewrite Hne in H.
    rewrite (filter_location_rows _ _ Hcol Hstr Hlow) in H. exact H.
  - intros t Hcols. unfold query_response. split; intros Hrows.
    + now rewrite (proj2 (df_empty_rows t Hcols) Hrows).
    + destruct (df_empty t) eqn:He; [|reflexivity].
      apply (df_empty_rows t Hcols) in He. contradiction.
Qed.

Lemma query_success_response_witness :
  handle_query
    (mkStorage (fun _ => true)
       (fun _ => inr (mkTable ["primary_name"; "room"]
                        [[VStr "Sterling Holidays"; VStr "deluxe"];
                         [VStr "Sterling Kodai Lake"; VStr "suite"]])))
    [("query", pstr "rooms at Sterling Holidays")]
  = Returned
      (PList [PDict [("primary_name", pstr "Sterling Holidays");
                     ("room", pstr "deluxe")]]).
Proof.
  destruct (query_success_response
              (mkStorage (fun _ => true)
                 (fun _ => inr (mkTable ["primary_name"; "room"]
                                  [[VStr "Sterling Holidays"; VStr "deluxe"];
                                   [VStr "Sterling Kodai Lake";
                                    VStr "suite"]])))
              [("query", pstr "rooms at Sterling Holidays")]
              "rooms at Sterling Holidays" "room-information"
              (mkTable ["primary_name"; "room"]
                 [[VStr "Sterling Holidays"; VStr "deluxe"];
                  [VStr "Sterling Kodai Lake"; VStr "suite"]])
              eq_refl eq_refl eq_refl eq_refl) as (_ & H & _).
  rewrite (H "sterling holidays" eq_refl eq_refl eq_refl). reflexivity.
Defined.

(** ** The spreadsheet logger *)

(** C5: the claim is that every documented failure, the failure to load
    the credentials included, becomes an [{"error": ...}] payload.  In
    the handler the credentials are loaded outside of any [try]: when
    loading fails the exception leaves the handler, no payload is
    returned and [sheet.append_row] is never called. *)
Theorem credentials_failure_propagates (check_mark : ascii)
  (sv : SheetService) (data : dict) (msg : string) :
  from_json_keyfile_name sv "creds.json" scope = Some msg ->
  log_to_google_sheet check_mark sv data = (Raised (LibraryError msg), [])
  /\ forall text,
       fst (log_to_google_sheet check_mark sv data)
       <> Returned (error_payload text).
Proof.
  intros H. unfold log_to_google_sheet. rewrite H.
  split; [reflexivity | discriminate].
Qed.

Lemma credentials_failure_propagates_witness :
  log_to_google_sheet "*"%char
    (mkSheetService (fun _ _ => Some "No such file or directory: creds.json")
                    None (fun _ => None) (fun _ => None)
                    "2025-01-01 00:00:00")
    [("phone_number", pstr "12345")]
  = (Raised (LibraryError "No such file or directory: creds.json"), []).
Proof.
  apply (credentials_failure_propagates "*"%char
           (mkSheetService
              (fun _ _ => Some "No such file or directory: creds.json")
              None (fun _ => None) (fun _ => None) "2025-01-01 00:00:00")
           [("phone_number", pstr "12345")]
           "No such file or directory: creds.json" eq_refl).
Defined.

(** X17: once the credentials are loaded and the client is authorised,
    the failures of the logger sit inside a [try] and are answered, not
    raised: a sheet that cannot be opened gives [{"error": "Could not
    open sheet: <text>"}], a row that cannot be appended gives
    [{"error": "Error appending row: <text>"}]; when both steps succeed
    the answer is the confirmation message. *)
Lemma sheet_failures_caught (check_mark : ascii) (sv : SheetService)
  (data : dict) :
  from_json_keyfile_name sv "creds.json" scope = None ->
  authorize sv = None ->
  (forall e, open_sheet1 sv "Formi_Call_Logs" = Some e ->
     fst (log_to_google_sheet check_mark sv data)
     = Returned (PDict [("error", pstr ("Could not open sheet: " ++ e))]))
  /\ (forall e, open_sheet1 sv "Formi_Call_Logs" = None ->
        append_row sv (call_log_row sv data) = Some e ->
        fst (log_to_google_sheet check_mark sv data)
        = Returned (PDict [("error", pstr ("Error appending row: " ++ e))]))
  /\ (open_sheet1 sv "Formi_Call_Logs" = None ->
      append_row sv (call_log_row sv data) = None ->
      fst (log_to_google_sheet check_mark sv data)
      = Returned
          (PDict [("message",
                   pstr (String check_mark " Call log added successfully"))])).
Proof.
  intros Hc Ha. unfold log_to_google_sheet. rewrite Hc, Ha.
  repeat split.
  - intros e ->. reflexivity.
  - intros e -> ->. reflexivity.
  - intros -> ->. reflexivity.
Qed.

(** * Further properties of the handlers *)

(** ** The text truncator *)

Lemma slice_to_nonneg {A : Type} (l : list A) (n : Z) :
  (0 <= n)%Z -> slice_to l n = firstn (Z.to_nat n) l.
Proof. intros H. unfold slice_to. destruct (Z.leb_spec 0 n); [reflexivity|lia]. Qed.

Lemma join_tokens_empty (l : list string) :
  Forall is_token l -> (join " " l = "" <-> l = []).
Proof.
  intros H. split; [|intros ->; reflexivity].
  destruct H as [|t l [_ Hne] Hl]; [reflexivity|].
  unfold join. cbn [String.concat]. intros Hj. exfalso. apply Hne.
  destruct l; [exact Hj|]. destruct t; [reflexivity | discriminate].
Qed.

(** X1: truncating twice is truncating once with the smaller bound; in
    particular truncation with one bound is idempotent. *)
Theorem truncate_twice (s : string) (N M : Z) :
  (0 <= N)%Z -> (0 <= M)%Z ->
  limit_token_size (limit_token_size s N) M = limit_token_size s (Z.min N M)
  /\ limit_token_size (limit_token_size s N) N = limit_token_size s N.
Proof.
  intros HN HM.
  assert (H : forall K, (0 <= K)%Z ->
            limit_token_size (limit_token_size s N) K
            = limit_token_size s (Z.min N K)).
  { intros K HK. unfold limit_token_size at 1.
    rewrite limit_token_size_tokens.
    rewrite (slice_to_nonneg _ K HK), (slice_to_nonneg _ N HN).
    rewrite firstn_firstn. unfold limit_token_size.
    rewrite slice_to_nonneg by lia.
    rewrite Z2Nat.inj_min, Nat.min_comm. reflexivity. }
  split; [apply H, HM|]. rewrite (H N HN). now rewrite Z.min_id.
Qed.

Lemma truncate_twice_witness :
  limit_token_size (limit_token_size "a b  c d e" 4) 2 = "a b".
Proof.
  destruct (truncate_twice "a b  c d e" 4 2) as [H _]; [lia | lia |].
  rewrite H. reflexivity.
Defined.

(** X2: with a negative bound the slice [tokens[:max_tokens]] drops the
    last [-max_tokens] tokens: the output has [max (count + max_tokens)
    0] tokens, still a prefix of the tokens of the input. *)
Theorem truncate_negative_bound (s : string) (N : Z) :
  (N < 0)%Z ->
  split (limit_token_size s N)
  = firstn (List.length (split s) - Z.to_nat (- N)) (split s)
  /\ token_count (limit_token_size s N) = Z.max (token_count s + N) 0
  /\ is_prefix (split (limit_token_size s N)) (split s).
Proof.
  intros HN.
  assert (H : split (limit_token_size s N)
              = firstn (List.length (split s) - Z.to_nat (- N)) (split s)).
  { rewrite limit_token_size_tokens. unfold slice_to.
    destruct (Z.leb_spec 0 N); [lia | reflexivity]. }
  split; [exact H|]. split.
  - unfold token_count. rewrite H, length_firstn. lia.
  - rewrite H. apply firstn_is_prefix.
Qed.

Lemma truncate_negative_bound_witness :
  token_count (limit_token_size "a b c d" (-3)) = 1%Z.
Proof.
  destruct (truncate_negative_bound "a b c d" (-3)) as (_ & H & _); [lia|].
  rewrite H. reflexivity.
Defined.

(** X3: with a non-negative bound, a text that has no more tokens than
    the bound comes back with its white space normalised (its tokens
    joined by single spaces), and the output is the empty string exactly
    when the bound is 0 or the text has no token. *)
Theorem truncate_short_text (s : string) (N : Z) :
  (0 <= N)%Z ->
  ((token_count s <= N)%Z -> limit_token_size s N = join " " (split s))
  /\ (limit_token_size s N = "" <-> N = 0%Z \/ split s = []).
Proof.
  intros HN. unfold limit_token_size. rewrite (slice_to_nonneg _ N HN).
  split.
  - unfold token_count. intros Hle. rewrite firstn_all2; [reflexivity|lia].
  - rewrite join_tokens_empty by apply Forall_firstn, split_tokens.
    split.
    + intros H. destruct (split s) as [|t l]; [now right|]. left.
      destruct (Z.to_nat N) eqn:HNat; [lia | discriminate].
    + intros [-> | ->]; [reflexivity | apply firstn_nil].
Qed.

Lemma truncate_short_text_witness :
  limit_token_size "  two   words " 800 = "two words"
  /\ limit_token_size "   " 800 = "".
Proof.
  split.
  - destruct (truncate_short_text "  two   words " 800) as [H _]; [lia|].
    rewrite H; [reflexivity | unfold token_count; simpl; lia].
  - destruct (truncate_short_text "   " 800) as [_ H]; [lia|].
    apply H. right. reflexivity.
Defined.

(** ** The filter endpoint *)

Lemma token_count_bound (s : string) (N : Z) :
  (0 <= N)%Z -> (token_count (limit_token_size s N) <= N)%Z.
Proof.
  intros HN. unfold token_count.
  rewrite limit_token_size_tokens, (slice_to_nonneg _ N HN), length_firstn.
  lia.
Qed.

(** The filter endpoint once the request is validated and the file is
    read. *)
Lemma filter_information_loaded (st : Storage) (to_string : Table -> string)
  (args : dict) (pn : pyval) (source : value) (df : Table) :
  dict_get args "primary_name" = Some pn ->
  dict_get args "source" = Some (PVal source) ->
  path_exists st ("data/" ++ str_of_value source ++ ".csv") = true ->
  read_csv st ("data/" ++ str_of_value source ++ ".csv") = inr df ->
  filter_information st to_string args
  = match apply_filters df pn
            (dict_get_default args "additional_filters" (PList [])) with
    | inl o => o
    | inr df' =>
        Returned (PDict [("filtered_data",
                          pstr (limit_token_size (to_string df') 800))])
    end.
Proof.
  intros Hpn Hsrc Hpath Hread.
  unfold filter_information, required_fields, first_missing, dict_mem.
  rewrite Hpn, Hsrc. cbn [negb]. rewrite Hpath. cbn [negb].
  rewrite Hread. reflexivity.
Qed.

(** X4: a well-formed request, with integers below 2^53 in magnitude,
    whose file loads is answered with
    [{"filtered_data": text}], where [text] is the rendering of the
    rows that satisfy every applied condition, cut to its first 800
    tokens; the answer has this form also when no row is left, and
    [text] never has more than 800 tokens. *)
Theorem filter_endpoint_success (st : Storage) (to_string : Table -> string)
  (args : dict) (pn source : value) (fs : list pyval)
  (conds : list (option string * value)) (df : Table) :
  dict_get args "primary_name" = Some (PVal pn) ->
  safe_scalar pn = true ->
  dict_get args "source" = Some (PVal source) ->
  dict_get_default args "additional_filters" (PList []) = PList fs ->
  read_conditions fs = Some conds ->
  path_exists st ("data/" ++ str_of_value source ++ ".csv") = true ->
  read_csv st ("data/" ++ str_of_value source ++ ".csv") = inr df ->
  exists text,
    filter_information st to_string args
    = Returned (PDict [("filtered_data", pstr text)])
    /\ text
       = limit_token_size
           (to_string
              (mkTable (columns df)
                 (filter (row_matches (columns df)
                            (applied_conditions df pn conds))
                         (rows df))))
           800
    /\ (token_count text <= 800)%Z.
Proof.
  intros Hpn Hsafe Hsrc Hfs Hconds Hpath Hread. eexists. split; [|split].
  - rewrite (filter_information_loaded _ _ _ _ _ _ Hpn Hsrc Hpath Hread).
    rewrite Hfs, (apply_filters_conditions _ _ _ _ Hsafe Hconds).
    reflexivity.
  - reflexivity.
  - apply token_count_bound. lia.
Qed.

Lemma filter_endpoint_success_witness :
  filter_information
    (mkStorage (fun _ => true)
       (fun _ => inr (mkTable ["primary_name"; "room"]
                        [[VStr "X"; VStr "deluxe"]; [VStr "Y"; VStr "suite"]])))
    (fun df => String.concat " " (columns df))
    [("primary_name", pstr "X"); ("source", pstr "rooms")]
  = Returned (PDict [("filtered_data", pstr "primary_name room")]).
Proof.
  destruct (filter_endpoint_success
              (mkStorage (fun _ => true)
                 (fun _ => inr (mkTable ["primary_name"; "room"]
                                  [[VStr "X"; VStr "deluxe"];
                                   [VStr "Y"; VStr "suite"]])))
              (fun df => String.concat " " (columns df))
              [("primary_name", pstr "X"); ("source", pstr "rooms")]
              (VStr "X") (VStr "rooms") [] []
              (mkTable ["primary_name"; "room"]
                 [[VStr "X"; VStr "deluxe"]; [VStr "Y"; VStr "suite"]])
              eq_refl eq_refl eq_refl eq_refl eq_refl eq_refl eq_refl)
    as (text & H & Htext & _).
  rewrite H, Htext. reflexivity.
Defined.

(** X5: a file that exists but cannot be parsed is reported, not raised:
    the filter endpoint answers [{"error": "Error reading file: <text of
    the exception>"}] and the query endpoint [{"error": "Failed to read
    CSV: <text of the exception>"}]. *)
Theorem read_failure_reported (st : Storage) (e : string) :
  (forall (to_string : Table -> string) (args : dict) (pn : pyval)
          (source : value),
      dict_get args "primary_name" = Some pn ->
      dict_get args "source" = Some (PVal source) ->
      path_exists st ("data/" ++ str_of_value source ++ ".csv") = true ->
      read_csv st ("data/" ++ str_of_value source ++ ".csv") = inl e ->
      filter_information st to_string args
      = Returned (PDict [("error", pstr ("Error reading file: " ++ e))]))
  /\ (forall (data : dict) (q c : string),
         dict_get data "query" = Some (pstr q) ->
         select_source (lower q) = Some c ->
         path_exists st (agent_directory_path c) = true ->
         read_csv st (agent_directory_path c) = inl e ->
         handle_query st data
         = Returned (PDict [("error", pstr ("Failed to read CSV: " ++ e))])).
Proof.
  split.
  - intros to_string args pn source Hpn Hsrc Hpath Hread.
    unfold filter_information, required_fields, first_missing, dict_mem.
    rewrite Hpn, Hsrc. cbn [negb]. rewrite Hpath. cbn [negb].
    now rewrite Hread.
  - intros data q c Hq Hc Hpath Hread.
    rewrite (handle_query_routed _ _ _ _ Hq Hc), Hpath, Hread. reflexivity.
Qed.

Lemma read_failure_reported_witness :
  filter_information
    (mkStorage (fun _ => true) (fun _ => inl "No columns to parse from file"))
    (fun _ => "") [("primary_name", pstr "X"); ("source", pstr "rooms")]
  = Returned (PDict [("error",
                      pstr "Error reading file: No columns to parse from file")])
  /\ handle_query
       (mkStorage (fun _ => true)
                  (fun _ => inl "No columns to parse from file"))
       [("query", pstr "any room?")]
     = Returned (PDict [("error",
                         pstr "Failed to read CSV: No columns to parse from file")]).
Proof.
  destruct (read_failure_reported
              (mkStorage (fun _ => true)
                         (fun _ => inl "No columns to parse from file"))
              "No columns to parse from file") as [Hf Hq].
  split.
  - apply (Hf (fun _ => "")
              [("primary_name", pstr "X"); ("source", pstr "rooms")]
              (pstr "X") (VStr "rooms")); reflexivity.
  - apply (Hq [("query", pstr "any room?")] "any room?" "room-information");
      reflexivity.
Defined.

Lemma filter_loop_app (fs rest : list pyval) (df : Table) :
  filter_loop df (fs ++ rest)%list
  = and_then (filter_loop df fs) (fun df' => filter_loop df' rest).
Proof.
  revert df. induction fs as [|f fs IH]; intros df; [reflexivity|].
  cbn [app filter_loop]. destruct (filter_step df f); [reflexivity|].
  apply IH.
Qed.

Lemma filter_primary_scalar (df : Table) (pn : value) :
  safe_scalar pn = true ->
  exists df1, filter_primary df (PVal pn) = inr df1.
Proof.
  intros Hsafe. unfold filter_primary.
  destruct (has_column df "primary_name"); [|eauto].
  rewrite (series_eq_safe _ _ Hsafe). eauto.
Qed.

(** X6: a malformed [additional_filters] makes the handler raise instead
    of answering, on a request that is otherwise in order (a primary
    name that compares exactly, a file that loads).  A value that
    cannot be iterated ([null], a number, a boolean) raises [TypeError]
    at the loop; a list raises [AttributeError] at its first element
    that is no dictionary, the well-formed conditions before it
    notwithstanding. *)
Theorem malformed_filters_raise (st : Storage) (to_string : Table -> string)
  (args : dict) (pn source : value) (df : Table) :
  dict_get args "primary_name" = Some (PVal pn) ->
  safe_scalar pn = true ->
  dict_get args "source" = Some (PVal source) ->
  path_exists st ("data/" ++ str_of_value source ++ ".csv") = true ->
  read_csv st ("data/" ++ str_of_value source ++ ".csv") = inr df ->
  (forall v,
      dict_get args "additional_filters" = Some (PVal v) ->
      (forall s, v <> VStr s) ->
      filter_information st to_string args = Raised TypeError)
  /\ (forall fs conds f rest,
         dict_get args "additional_filters"
         = Some (PList (fs ++ f :: rest)%list) ->
         read_conditions fs = Some conds ->
         (forall d, f <> PDict d) ->
         filter_information st to_string args = Raised AttributeError).
Proof.
  intros Hpn Hsafe Hsrc Hpath Hread.
  pose proof (filter_information_loaded _ to_string _ _ _ _
                Hpn Hsrc Hpath Hread) as H.
  destruct (filter_primary_scalar df pn Hsafe) as [df1 Hprim].
  unfold apply_filters, dict_get_default in H. rewrite Hprim in H.
  split.
  - intros v Hv Hnot. rewrite Hv in H. rewrite H.
    destruct v; try reflexivity. now destruct (Hnot s).
  - intros fs conds f rest Hfs Hconds Hf. rewrite Hfs in H. rewrite H.
    cbn [iterate]. rewrite filter_loop_app.
    rewrite (filter_loop_conditions _ _ _ Hconds). cbn [and_then filter_loop].
    destruct f as [v|l|d]; try reflexivity. now destruct (Hf d).
Qed.

Lemma malformed_filters_raise_witness :
  filter_information
    (mkStorage (fun _ => true) (fun _ => inr (mkTable ["room"] [])))
    (fun _ => "")
    [("primary_name", pstr "X"); ("source", pstr "rooms");
     ("additional_filters", PVal VNone)]
  = Raised TypeError
  /\ filter_information
       (mkStorage (fun _ => true) (fun _ => inr (mkTable ["room"] [])))
       (fun _ => "")
       [("primary_name", pstr "X"); ("source", pstr "rooms");
        ("additional_filters",
         PList [PDict [("column_name", pstr "room")]; pstr "room=deluxe"])]
     = Raised AttributeError.
Proof.
  split.
  - destruct (malformed_filters_raise
                (mkStorage (fun _ => true)
                           (fun _ => inr (mkTable ["room"] [])))
                (fun _ => "")
                [("primary_name", pstr "X"); ("source", pstr "rooms");
                 ("additional_filters", PVal VNone)]
                (VStr "X") (VStr "rooms") (mkTable ["room"] [])
                eq_refl eq_refl eq_refl eq_refl eq_refl) as [H _].
    apply (H VNone eq_refl). discriminate.
  - destruct (malformed_filters_raise
                (mkStorage (fun _ => true)
                           (fun _ => inr (mkTable ["room"] [])))
                (fun _ => "")
                [("primary_name", pstr "X"); ("source", pstr "rooms");
                 ("additional_filters",
                  PList [PDict [("column_name", pstr "room")];
                         pstr "room=deluxe"])]
                (VStr "X") (VStr "rooms") (mkTable ["room"] [])
                eq_refl eq_refl eq_refl eq_refl eq_refl) as [_ H].
    apply (H [PDict [("column_name", pstr "room")]]
             [(Some "room", VNone)] (pstr "room=deluxe") [] eq_refl eq_refl).
    discriminate.
Defined.

(** ** The equality filter engine *)

Lemma filter_step_error (df : Table) (f : pyval) (o : outcome) :
  filter_step df f = inl o ->
  o = Unmodelled \/ o = Raised TypeError \/ o = Raised AttributeError
  \/ o = Raised OverflowError.
Proof.
  unfold filter_step.
  destruct f as [v|l|fd]; try (intros [= <-]; auto).
  destruct (dict_get_default fd "column_name" (PVal VNone))
    as [[| | | |c]|l|d]; try discriminate; try (intros [= <-]; auto).
  destruct (has_column df c); [|discriminate].
  destruct (dict_get_default fd "value" (PVal VNone)) as [v|l|d];
    try (intros [= <-]; auto).
  destruct (series_eq (series df c) v) as [o'|m] eqn:Hs; [|discriminate].
  intros [= <-]. destruct (series_eq_error _ _ _ Hs) as [-> | ->]; auto.
Qed.

Lemma filter_loop_error (fs : list pyval) (df : Table) (o : outcome) :
  filter_loop df fs = inl o ->
  o = Unmodelled \/ o = Raised TypeError \/ o = Raised AttributeError
  \/ o = Raised OverflowError.
Proof.
  revert df. induction fs as [|f fs IH]; intros df; [discriminate|].
  cbn [filter_loop]. destruct (filter_step df f) as [o'|df'] eqn:Hstep.
  - intros [= <-]. apply (filter_step_error _ _ _ Hstep).
  - apply IH.
Qed.

(** X7: whatever the request, the engine either raises ([TypeError],
    [AttributeError] or [OverflowError], or the request is outside the
    modelled fragment) or returns a table with the columns of the input
    whose rows are rows of the input in their original order: it never
    adds, duplicates, reorders or alters a row, and never answers with a
    payload of its own. *)
Theorem engine_outcomes (df : Table) (pn filters : pyval) :
  match apply_filters df pn filters with
  | inr out => columns out = columns df /\ Subseq (rows out) (rows df)
  | inl o =>
      o = Unmodelled \/ o = Raised TypeError \/ o = Raised AttributeError
      \/ o = Raised OverflowError
  end.
Proof.
  destruct (apply_filters df pn filters) as [o|out] eqn:H.
  - unfold apply_filters in H.
    destruct (filter_primary df pn) as [o1|df1] eqn:Hprim.
    + injection H as <-. unfold filter_primary in Hprim.
      destruct (has_column df "primary_name"); [|discriminate].
      destruct pn as [v|l|d]; try (injection Hprim as <-; auto).
      destruct (series_eq (series df "primary_name") v) as [o'|m] eqn:Hs;
        [|discriminate].
      injection Hprim as <-.
      destruct (series_eq_error _ _ _ Hs) as [-> | ->]; auto.
    + destruct (iterate filters) as [e|fs] eqn:Hit.
      * injection H as <-. unfold iterate in Hit.
        destruct filters as [[| | | |s]|l|d]; try discriminate;
          injection Hit as <-; auto.
      * apply (filter_loop_error _ _ _ H).
  - destruct (apply_filters_rows _ _ _ _ H) as [p Hp].
    pose proof (Hp df eq_refl) as Hdf. rewrite H in Hdf.
    injection Hdf as ->. cbn [columns rows].
    split; [reflexivity | apply filter_Subseq].
Qed.

Lemma read_conditions_perm (fs fs' : list pyval) :
  Permutation fs fs' ->
  forall conds, read_conditions fs = Some conds ->
  exists conds', read_conditions fs' = Some conds'
                 /\ Permutation conds conds'.
Proof.
  induction 1 as [|f l l' Hp IH|f g l|l l' l'' Hp1 IH1 Hp2 IH2];
    intros conds Hc.
  - exists conds. split; [exact Hc | apply Permutation_refl].
  - cbn [read_conditions] in *.
    destruct (read_condition f) as [c|]; [|discriminate].
    destruct (read_conditions l) as [cs|]; [|discriminate].
    injection Hc as <-. destruct (IH cs eq_refl) as (cs' & -> & Hcs).
    exists (c :: cs'). split; [reflexivity | now constructor].
  - cbn [read_conditions] in *.
    destruct (read_condition g) as [cg|]; [|discriminate].
    destruct (read_condition f) as [cf|]; [|discriminate].
    destruct (read_conditions l) as [cs|]; [|discriminate].
    injection Hc as <-. exists (cf :: cg :: cs).
    split; [reflexivity | constructor].
  - destruct (IH1 conds Hc) as (c1 & H1 & Hp1').
    destruct (IH2 c1 H1) as (c2 & H2 & Hp2').
    exists c2. split; [exact H2 | eapply Permutation_trans; eassumption].
Qed.

Lemma row_matches_perm (cols : list string) (a b : list (string * value))
  (row : list value) :
  Permutation a b -> row_matches cols a row = row_matches cols b row.
Proof.
  unfold row_matches. induction 1 as [|x l l' Hp IH|x y l|l l' l'' _ IH1 _ IH2];
    cbn [forallb].
  - reflexivity.
  - now rewrite IH.
  - rewrite !andb_assoc. f_equal. apply andb_comm.
  - now rewrite IH1.
Qed.

(** X8: the order of the additional conditions does not matter: two
    well-formed lists of conditions that are permutations of each other
    give the same outcome, and that outcome is a table when the primary
    name is a scalar that compares exactly. *)
Theorem conditions_order_irrelevant (df : Table) (pn : pyval)
  (fs fs' : list pyval) (conds : list (option string * value)) :
  read_conditions fs = Some conds ->
  Permutation fs fs' ->
  apply_filters df pn (PList fs') = apply_filters df pn (PList fs)
  /\ forall v, pn = PVal v -> safe_scalar v = true ->
       exists out, apply_filters df pn (PList fs) = inr out.
Proof.
  intros Hc Hp.
  destruct (read_conditions_perm _ _ Hp conds Hc) as (conds' & Hc' & Hpc).
  split.
  - unfold apply_filters.
    destruct (filter_primary df pn) as [o|df1]; [reflexivity|].
    cbn [iterate].
    rewrite (filter_loop_conditions _ _ _ Hc).
    rewrite (filter_loop_conditions _ _ _ Hc').
    do 2 f_equal. apply filter_ext. intros row.
    apply row_matches_perm. unfold present_conditions.
    apply Permutation_flat_map, Permutation_sym, Hpc.
  - intros v -> Hsafe.
    rewrite (apply_filters_conditions _ _ _ _ Hsafe Hc). eauto.
Qed.

Lemma conditions_order_irrelevant_witness :
  apply_filters
    (mkTable ["room"; "city"]
       [[VStr "deluxe"; VStr "kodai"]; [VStr "suite"; VStr "kodai"]])
    (PVal VNone)
    (PList [PDict [("column_name", pstr "city"); ("value", pstr "kodai")];
            PDict [("column_name", pstr "room"); ("value", pstr "suite")]])
  = apply_filters
      (mkTable ["room"; "city"]
         [[VStr "deluxe"; VStr "kodai"]; [VStr "suite"; VStr "kodai"]])
      (PVal VNone)
      (PList [PDict [("column_name", pstr "room"); ("value", pstr "suite")];
              PDict [("column_name", pstr "city"); ("value", pstr "kodai")]]).
Proof.
  apply (conditions_order_irrelevant
           (mkTable ["room"; "city"]
              [[VStr "deluxe"; VStr "kodai"]; [VStr "suite"; VStr "kodai"]])
           (PVal VNone)
           [PDict [("column_name", pstr "room"); ("value", pstr "suite")];
            PDict [("column_name", pstr "city"); ("value", pstr "kodai")]]
           [PDict [("column_name", pstr "city"); ("value", pstr "kodai")];
            PDict [("column_name", pstr "room"); ("value", pstr "suite")]]
           [(Some "room", VStr "suite"); (Some "city", VStr "kodai")]
           eq_refl).
  apply perm_swap.
Defined.

(** X9: what the route endpoint returns is a request the filter endpoint
    accepts.  Fed with the [args] object of a successful routing answer,
    the filter endpoint never asks for a missing field: it looks for
    [data/<category>.csv] and, when that file loads, answers with the
    rows whose [primary_name] is ["Sterling_Holidays"] (all rows when the
    table has no such column), no additional condition applied. *)
Theorem route_feeds_filter (st : Storage) (to_string : Table -> string)
  (data : dict) (q c : string) :
  dict_get data "query" = Some (pstr q) ->
  select_source (lower q) = Some c ->
  exists args,
    route_query data = Returned (PDict [("args", PDict args)])
    /\ first_missing required_fields args = None
    /\ (path_exists st ("data/" ++ c ++ ".csv") = false ->
        filter_information st to_string args
        = Returned (PDict [("error", pstr ("File " ++ c ++ ".csv not found"))]))
    /\ (forall df,
          path_exists st ("data/" ++ c ++ ".csv") = true ->
          read_csv st ("data/" ++ c ++ ".csv") = inr df ->
          filter_information st to_string args
          = Returned
              (PDict [("filtered_data",
                       pstr (limit_token_size
                               (to_string
                                  (if has_column df "primary_name" then
                                     mkTable (columns df)
                                       (filter
                                          (fun row =>
                                             cell_eqb
                                               (cell_at (columns df) row
                                                  "primary_name")
                                               (VStr "Sterling_Holidays"))
                                          (rows df))
                                   else df))
                               800))])).
Proof.
  intros Hq Hc.
  exists [("primary_name", pstr "Sterling_Holidays"); ("source", pstr c);
          ("additional_filters", PList [])].
  split; [|split; [reflexivity|split]].
  - unfold route_query, dict_get_default. rewrite Hq. cbn [pstr]. cbv zeta.
    rewrite (select_source_nonempty _ _ Hc), Hc.
    pose proof (select_source_name _ _ Hc) as Hne.
    destruct c; [congruence | reflexivity].
  - intros Hpath. unfold filter_information. cbn.
    cbn in Hpath. now rewrite Hpath.
  - intros df Hpath Hread.
    rewrite (filter_information_loaded st to_string
               [("primary_name", pstr "Sterling_Holidays");
                ("source", pstr c); ("additional_filters", PList [])]
               (pstr "Sterling_Holidays") (VStr c) df
               eq_refl eq_refl Hpath Hread).
    unfold dict_get_default. cbn [dict_get String.eqb Ascii.eqb Bool.eqb].
    unfold apply_filters, filter_primary. cbn [pstr series_eq].
    destruct (has_column df "primary_name").
    + rewrite boolean_index_eq. reflexivity.
    + reflexivity.
Qed.

Lemma route_feeds_filter_witness :
  exists args,
    route_query [("query", pstr "Room rates")]
    = Returned (PDict [("args", PDict args)])
    /\ filter_information (mkStorage (fun _ => false) (fun _ => inl "unused"))
         (fun _ => "") args
       = Returned (PDict [("error",
                           pstr "File room-information.csv not found")]).
Proof.
  destruct (route_feeds_filter
              (mkStorage (fun _ => false) (fun _ => inl "unused"))
              (fun _ => "") [("query", pstr "Room rates")]
              "Room rates" "room-information" eq_refl eq_refl)
    as (args & Hr & _ & Hmiss & _).
  exists args. split; [exact Hr | apply Hmiss; reflexivity].
Defined.

(** ** The route and query endpoints *)

Lemma select_source_none (query : string) :
  (forall c kws w, In (c, kws) routing_map -> In w kws -> ~ occurs w query) ->
  select_source query = None.
Proof.
  intros Hno. destruct (select_source query) as [c|] eqn:Hc; [|reflexivity].
  apply (scan_routes_first_entry _ _ _ routing_map_names) in Hc.
  destruct Hc as (pre & kws & post & Heq & (w & Hin & Hw) & _).
  exfalso. apply (Hno c kws w); [|exact Hin|exact Hw].
  rewrite Heq. apply in_or_app. right. now left.
Qed.

(** X10: a non-empty query in which no keyword of any category occurs is
    refused by both endpoints, each with its own message, and the query
    endpoint does so whatever the storage holds. *)
Theorem no_keyword_no_route (st : Storage) (data : dict) (q : string) :
  dict_get data "query" = Some (pstr q) ->
  q <> "" ->
  (forall c kws w,
      In (c, kws) routing_map -> In w kws -> ~ occurs w (lower q)) ->
  route_query data
  = Returned (PDict [("error", pstr "Could not determine source from query")])
  /\ handle_query st data
     = Returned (PDict [("error",
                         pstr "Could not determine data source from query.")]).
Proof.
  intros Hq Hne Hno. apply select_source_none in Hno.
  unfold route_query, handle_query, dict_get_default. rewrite Hq.
  cbn [pstr]. cbv zeta. rewrite Hno.
  destruct q; [congruence|]. split; reflexivity.
Qed.

Lemma no_keyword_no_route_witness :
  route_query [("query", pstr " ")]
  = Returned (PDict [("error", pstr "Could not determine source from query")]).
Proof.
  destruct (no_keyword_no_route
              (mkStorage (fun _ => true) (fun _ => inl "unused"))
              [("query", pstr " ")] " " eq_refl) as [H _];
    [discriminate| |exact H].
  intros c kws w Hc Hw Hocc. apply contains_occurs in Hocc.
  cbn in Hc.
  repeat (destruct Hc as [[= <- <-]|Hc];
          [cbn in Hw;
           repeat (destruct Hw as [<-|Hw]; [discriminate Hocc|]);
           destruct Hw|]).
  destruct Hc.
Defined.

(** X11: a ["query"] that is present but is no string (a [null], a
    number, a list, ...) makes both endpoints raise [AttributeError]:
    only an absent key falls back to the empty string. *)
Theorem non_string_query_raises (st : Storage) (data : dict) (v : pyval) :
  dict_get data "query" = Some v ->
  (forall s, v <> pstr s) ->
  route_query data = Raised AttributeError
  /\ handle_query st data = Raised AttributeError.
Proof.
  intros Hq Hv. unfold route_query, handle_query, dict_get_default.
  rewrite Hq. destruct v as [[| | | |s]|l|d]; try (split; reflexivity).
  now destruct (Hv s).
Qed.

Lemma non_string_query_raises_witness :
  route_query [("query", PVal VNone)] = Raised AttributeError
  /\ handle_query (mkStorage (fun _ => true) (fun _ => inl "unused"))
       [("query", PVal VNone)]
     = Raised AttributeError.
Proof.
  apply (non_string_query_raises
           (mkStorage (fun _ => true) (fun _ => inl "unused"))
           [("query", PVal VNone)] (PVal VNone) eq_refl).
  discriminate.
Defined.

Lemma lower_char_idempotent (c : ascii) :
  lower_char (lower_char c) = lower_char c.
Proof. destruct c as [[] [] [] [] [] [] [] []]; reflexivity. Qed.

Lemma lower_idempotent (s : string) : lower (lower s) = lower s.
Proof.
  induction s as [|c s IH]; [reflexivity|].
  cbn [lower]. now rewrite lower_char_idempotent, IH.
Qed.

(** X12: both endpoints ignore the case of the query: two requests whose
    queries differ by case only get the same outcome; in particular a
    query and its lower-cased form do. *)
Theorem routing_ignores_case (st : Storage) (data1 data2 : dict)
  (q1 q2 : string) :
  dict_get data1 "query" = Some (pstr q1) ->
  dict_get data2 "query" = Some (pstr q2) ->
  lower q1 = lower q2 ->
  route_query data1 = route_query data2
  /\ handle_query st data1 = handle_query st data2
  /\ lower (lower q1) = lower q1.
Proof.
  intros H1 H2 Hl. unfold route_query, handle_query, dict_get_default.
  rewrite H1, H2. cbn [pstr]. cbv zeta. rewrite Hl.
  repeat split. rewrite <- Hl. apply lower_idempotent.
Qed.

Lemma routing_ignores_case_witness :
  route_query [("query", pstr "ROOM Rate")]
  = route_query [("query", pstr "room rate")].
Proof.
  destruct (routing_ignores_case
              (mkStorage (fun _ => true) (fun _ => inl "unused"))
              [("query", pstr "ROOM Rate")] [("query", pstr "room rate")]
              "ROOM Rate" "room rate" eq_refl eq_refl eq_refl) as [H _].
  exact H.
Defined.

(** X13: the route endpoint has four kinds of outcome and no other: it
    raises [AttributeError] (a query that is no string), or answers
    ["Query is required"], or ["Could not determine source from query"],
    or the [args] object, whose source is one of the five categories,
    whose primary name is ["Sterling_Holidays"] and whose list of
    additional filters is empty. *)
Theorem route_outcomes (data : dict) :
  route_query data = Raised AttributeError
  \/ route_query data = Returned (PDict [("error", pstr "Query is required")])
  \/ route_query data
     = Returned (PDict [("error",
                         pstr "Could not determine source from query")])
  \/ exists c,
       In c ["activities"; "room-information"; "pricing"; "rules"; "queries"]
       /\ route_query data
          = Returned
              (PDict [("args",
                       PDict [("primary_name", pstr "Sterling_Holidays");
                              ("source", pstr c);
                              ("additional_filters", PList [])])]).
Proof.
  unfold route_query.
  destruct (dict_get_default data "query" (pstr "")) as [[| | | |q]|l|d];
    auto.
  cbv zeta. destruct (is_empty (lower q)); [auto|].
  destruct (select_source (lower q)) as [c|] eqn:Hc; [|cbn; auto].
  pose proof (select_source_name _ _ Hc) as Hne.
  pose proof (select_source_cases _ _ Hc) as Hin.
  do 3 right. exists c. split; [exact Hin|].
  destruct c; [congruence | reflexivity].
Qed.

(** ** The query endpoint *)

(** The query endpoint once the file of the category is read. *)
Lemma handle_query_loaded (st : Storage) (data : dict) (q c : string)
  (df : Table) :
  dict_get data "query" = Some (pstr q) ->
  select_source (lower q) = Some c ->
  path_exists st (agent_directory_path c) = true ->
  read_csv st (agent_directory_path c) = inr df ->
  handle_query st data
  = match
      match match_location (lower q) with
      | Some loc => if is_empty loc then inr df else filter_location df loc
      | None => inr df
      end
    with
    | inl e => Raised e
    | inr filtered_df =>
        if df_empty filtered_df then
          Returned (message_payload "No results found.")
        else Returned (to_dict_records (head 5 filtered_df))
    end.
Proof.
  intros Hq Hc Hpath Hread.
  rewrite (handle_query_routed _ _ _ _ Hq Hc), Hpath, Hread. reflexivity.
Qed.

Lemma match_location_nonempty (query loc : string) :
  match_location query = Some loc -> is_empty loc = false.
Proof.
  intros H. destruct (match_location_cases _ _ H) as [-> | ->]; reflexivity.
Qed.

(** X14: when the query names a known location and the table that was
    read has no [primary_name] column, the query endpoint raises
    [KeyError] instead of answering (the filter endpoint skips the
    condition in that case). *)
Theorem location_without_column_raises (st : Storage) (data : dict)
  (q c loc : string) (df : Table) :
  dict_get data "query" = Some (pstr q) ->
  select_source (lower q) = Some c ->
  path_exists st (agent_directory_path c) = true ->
  read_csv st (agent_directory_path c) = inr df ->
  match_location (lower q) = Some loc ->
  has_column df "primary_name" = false ->
  handle_query st data = Raised (KeyError "primary_name").
Proof.
  intros Hq Hc Hpath Hread Hloc Hcol.
  rewrite (handle_query_loaded _ _ _ _ _ Hq Hc Hpath Hread), Hloc.
  rewrite (match_location_nonempty _ _ Hloc).
  unfold filter_location. now rewrite Hcol.
Qed.

Lemma location_without_column_raises_witness :
  handle_query
    (mkStorage (fun _ => true)
               (fun _ => inr (mkTable ["name"; "price"] [])))
    [("query", pstr "Price at Sterling Kodai Lake")]
  = Raised (KeyError "primary_name").
Proof.
  apply (location_without_column_raises
           (mkStorage (fun _ => true)
                      (fun _ => inr (mkTable ["name"; "price"] [])))
           [("query", pstr "Price at Sterling Kodai Lake")]
           "Price at Sterling Kodai Lake" "pricing" "sterling kodai lake"
           (mkTable ["name"; "price"] []));
    reflexivity.
Defined.

(** X15: when the query names a known location and the [primary_name]
    column of a table with rows holds no string at all (numbers or
    missing cells only), the [.str] accessor is unavailable and the
    query endpoint raises [AttributeError]. *)
Theorem location_on_stringless_column_raises (st : Storage) (data : dict)
  (q c loc : string) (df : Table) :
  dict_get data "query" = Some (pstr q) ->
  select_source (lower q) = Some c ->
  path_exists st (agent_directory_path c) = true ->
  read_csv st (agent_directory_path c) = inr df ->
  match_location (lower q) = Some loc ->
  has_column df "primary_name" = true ->
  rows df <> [] ->
  (forall row s,
      In row (rows df) ->
      cell_at (columns df) row "primary_name" <> VStr s) ->
  handle_query st data = Raised AttributeError.
Proof.
  intros Hq Hc Hpath Hread Hloc Hcol Hrows Hcells.
  rewrite (handle_query_loaded _ _ _ _ _ Hq Hc Hpath Hread), Hloc.
  rewrite (match_location_nonempty _ _ Hloc).
  unfold filter_location. rewrite Hcol.
  assert (Hstr : str_accessor_ok (series df "primary_name") = false).
  { unfold str_accessor_ok, series.
    destruct (rows df) as [|r rs] eqn:Hr; [congruence|].
    rewrite <- Hr in *.
    destruct (map _ (rows df)) as [|x xs] eqn:Hm; [now rewrite Hr in Hm|].
    rewrite <- Hm.
    destruct (existsb _ (map _ (rows df))) eqn:Hex; [|reflexivity].
    apply existsb_exists in Hex as (cell & Hin & Hcell).
    apply in_map_iff in Hin as (row & <- & Hin).
    destruct (cell_at (columns df) row "primary_name") eqn:Hcl;
      try discriminate.
    exfalso. apply (Hcells row s Hin Hcl). }
  now rewrite Hstr.
Qed.

Lemma location_on_stringless_column_raises_witness :
  handle_query
    (mkStorage (fun _ => true)
       (fun _ => inr (mkTable ["primary_name"; "price"]
                        [[VInt 1; VInt 900]; [VNaN; VInt 1200]])))
    [("query", pstr "Price at Sterling Kodai Lake")]
  = Raised AttributeError.
Proof.
  apply (location_on_stringless_column_raises
           (mkStorage (fun _ => true)
              (fun _ => inr (mkTable ["primary_name"; "price"]
                               [[VInt 1; VInt 900]; [VNaN; VInt 1200]])))
           [("query", pstr "Price at Sterling Kodai Lake")]
           "Price at Sterling Kodai Lake" "pricing" "sterling kodai lake"
           (mkTable ["primary_name"; "price"]
              [[VInt 1; VInt 900]; [VNaN; VInt 1200]]));
    try reflexivity; try discriminate.
  intros row s [<-|[<-|[]]]; discriminate.
Defined.

Lemma df_empty_false_rows (df : Table) :
  df_empty df = false -> rows df <> [].
Proof. unfold df_empty. destruct (rows df); [discriminate | discriminate]. Qed.

Ltac answers_error := right; right; left; eexists; reflexivity.

(** X16: the query endpoint has these outcomes and no other: it raises
    [AttributeError] or [KeyError] on [primary_name]; or it answers with
    an [{"error": ...}] payload, with [{"message": "No results
    found."}], or with a list of rows that is never empty and never
    longer than five. *)
Theorem query_outcomes (st : Storage) (data : dict) :
  handle_query st data = Raised AttributeError
  \/ handle_query st data = Raised (KeyError "primary_name")
  \/ (exists msg,
        handle_query st data = Returned (PDict [("error", pstr msg)]))
  \/ handle_query st data
     = Returned (PDict [("message", pstr "No results found.")])
  \/ exists l,
       handle_query st data = Returned (PList l)
       /\ 1 <= List.length l <= 5.
Proof.
  assert (Hfin : forall t : Table,
             (if df_empty t then Returned (message_payload "No results found.")
              else Returned (to_dict_records (head 5 t)))
             = Returned (PDict [("message", pstr "No results found.")])
             \/ exists l,
                  (if df_empty t
                   then Returned (message_payload "No results found.")
                   else Returned (to_dict_records (head 5 t)))
                  = Returned (PList l)
                  /\ 1 <= List.length l <= 5).
  { intros t. destruct (df_empty t) eqn:He; [now left|]. right.
    eexists. split; [reflexivity|].
    apply df_empty_false_rows in He. cbn [head rows].
    rewrite length_map, length_firstn.
    destruct (rows t); [congruence|]. cbn [List.length]. lia. }
  unfold handle_query.
  destruct (dict_get_default data "query" (pstr "")) as [[| | | |q]|l|d];
    auto.
  cbv zeta. destruct (is_empty (lower q)); [answers_error|].
  destruct (select_source (lower q)) as [c|];
    [|answers_error].
  destruct (is_empty c); [answers_error|].
  destruct (negb (path_exists st _)); [answers_error|].
  destruct (read_csv st _) as [e|df]; [answers_error|].
  destruct (match_location (lower q)) as [loc|].
  - destruct (is_empty loc).
    + do 3 right. apply Hfin.
    + unfold filter_location.
      destruct (has_column df "primary_name"); [|now right; left].
      destruct (str_accessor_ok _); [|now left].
      do 3 right. apply Hfin.
  - do 3 right. apply Hfin.
Qed.

(** ** The spreadsheet logger *)

Lemma sheet_failures_caught_witness :
  fst (log_to_google_sheet "*"%char
         (mkSheetService (fun _ _ => None) None
                         (fun _ => Some "SpreadsheetNotFound") (fun _ => None)
                         "2025-01-01 00:00:00")
         [("phone_number", pstr "12345")])
  = Returned (PDict [("error",
                      pstr "Could not open sheet: SpreadsheetNotFound")]).
Proof.
  destruct (sheet_failures_caught "*"%char
              (mkSheetService (fun _ _ => None) None
                              (fun _ => Some "SpreadsheetNotFound")
                              (fun _ => None) "2025-01-01 00:00:00")
              [("phone_number", pstr "12345")] eq_refl eq_refl) as [H _].
  apply (H "SpreadsheetNotFound" eq_refl).
Defined.

(** X19: a request that leaves out a call-log field gets the placeholder
    ["NA"] in its cell, and the current time in the cell of [call_time];
    a field that is present is written as sent, in the fixed order of
    the nine columns, whatever other keys the body holds. *)
Theorem call_log_row_cells (sv : SheetService) (data : dict) :
  let fields := ["call_time"; "phone_number"; "call_outcome";
                 "customer_name"; "room_name"; "check_in"; "check_out";
                 "guests"; "call_summary"] in
  List.length (call_log_row sv data) = List.length fields
  /\ forall i field,
       nth_error fields i = Some field ->
       nth_error (call_log_row sv data) i
       = Some (match dict_get data field with
               | Some v => v
               | None => if field =? "call_time" then pstr (now sv)
                         else pstr "NA"
               end).
Proof.
  cbv zeta. split; [reflexivity|].
  intros i field Hi. unfold call_log_row, dict_get_default.
  do 9 (destruct i as [|i]; [injection Hi as <-; reflexivity|]).
  destruct i; discriminate.
Qed.

Lemma call_log_row_cells_witness :
  nth_error
    (call_log_row
       (mkSheetService (fun _ _ => None) None (fun _ => None) (fun _ => None)
                       "2025-01-01 00:00:00")
       [("guests", PVal (VInt 2)); ("agent", pstr "ignored")]) 7
  = Some (PVal (VInt 2)).
Proof.
  destruct (call_log_row_cells
              (mkSheetService (fun _ _ => None) None (fun _ => None)
                              (fun _ => None) "2025-01-01 00:00:00")
              [("guests", PVal (VInt 2)); ("agent", pstr "ignored")])
    as [_ H].
  apply (H 7 "guests" eq_refl).
Defined.

(** ** Conditions without a value *)

Lemma cell_eqb_none (cell : value) : cell_eqb cell VNone = false.
Proof. now destruct cell. Qed.

Lemma filter_none {A : Type} (p : A -> bool) (l : list A) :
  (forall x, In x l -> p x = false) -> filter p l = [].
Proof.
  induction l as [|x l IH]; intros H; [reflexivity|].
  cbn [filter]. rewrite (H x (or_introl eq_refl)).
  apply IH. intros y Hy. apply H. now right.
Qed.

(** X20: in a well-formed request (integers below 2^53 in magnitude), a
    condition on an existing column whose ["value"] is absent or [null]
    removes every row: no cell equals [None], a missing cell included.
    The engine still returns a table, with no row. *)
Theorem null_value_condition_empties (df : Table) (pn : value)
  (fs : list pyval) (conds : list (option string * value)) (col : string) :
  safe_scalar pn = true ->
  read_conditions fs = Some conds ->
  In (Some col, VNone) conds ->
  has_column df col = true ->
  apply_filters df (PVal pn) (PList fs) = inr (mkTable (columns df) []).
Proof.
  intros Hsafe Hc Hin Hcol.
  rewrite (apply_filters_conditions _ _ _ _ Hsafe Hc). do 2 f_equal.
  apply filter_none. intros row _.
  assert (Happ : In (col, VNone) (applied_conditions df pn conds)).
  { unfold applied_conditions. apply in_or_app. right.
    apply present_conditions_In. split; [exact Hin | exact Hcol]. }
  unfold row_matches.
  destruct (forallb _ (applied_conditions df pn conds)) eqn:Hall;
    [|reflexivity].
  rewrite forallb_forall in Hall. specialize (Hall _ Happ).
  cbn [fst snd] in Hall. now rewrite cell_eqb_none in Hall.
Qed.

Lemma null_value_condition_empties_witness :
  apply_filters
    (mkTable ["room"; "floor"] [[VStr "deluxe"; VNaN]; [VStr "suite"; VInt 2]])
    (PVal (VStr "X"))
    (PList [PDict [("column_name", pstr "floor")]])
  = inr (mkTable ["room"; "floor"] []).
Proof.
  apply (null_value_condition_empties
           (mkTable ["room"; "floor"]
              [[VStr "deluxe"; VNaN]; [VStr "suite"; VInt 2]])
           (VStr "X") [PDict [("column_name", pstr "floor")]]
           [(Some "floor", VNone)] "floor" eq_refl eq_refl).
  - now left.
  - reflexivity.
Defined.
